(** * Catalog service: authorization-aware directory/file catalog

    Shallow embedding of [catalog_service/server.py] (the gRPC interceptor,
    the identity resolver, the permission evaluator and the seven catalog
    RPC handlers) together with the properties of its specification.

    Conventions of the embedding:
    - a Mongo collection is the list of its documents in insertion order;
      [find_one], [update_one] and [delete_one] act on the first match;
    - a stored document is a record; a key that an older document may lack
      (read in the source with [doc.get(key, default)]) is an [option];
    - a handler is a function in the monad [M]: it threads the [world]
      (both collections, the id supply, the outbound-call logs, the logger)
      and ends in a response, in [context.abort(code, details)] or in an
      uncaught Python exception;
    - the two gRPC stubs (identity collaborator, blob collaborator) are
      fields of [self], as in the source: a stub is any function from the
      request to a reply or an error, so every behaviour of a collaborator
      is covered;
    - the document store itself does not fail (no INTERNAL status is
      modelled) and one call runs at a time. *)

From Stdlib Require Import List String Ascii ZArith NArith Bool Lia.
From Stdlib Require Import Strings.Byte.
From Stdlib Require DecimalString.
Import ListNotations.
Local Open Scope string_scope.
Local Open Scope list_scope.

(* ===================================================================== *)
(** ** Python built-ins used by the source *)
(* ===================================================================== *)

Module Py.

(** [bool(s)] for a [str]. *)
Definition truthy (s : string) : bool := negb (s =? "")%string.

(** [bool(o)] for a value that is [None] or a [str]. *)
Definition truthy_opt (o : option string) : bool :=
  match o with
  | None => false
  | Some s => truthy s
  end.

(** [s.startswith(p)]. *)
Definition startswith (s p : string) : bool := String.prefix p s.

(** [s.split(sep)] for a one-character separator: never empty. *)
Fixpoint split (sep : ascii) (s : string) : list string :=
  match s with
  | EmptyString => [EmptyString]
  | String c r =>
      if Ascii.eqb c sep then EmptyString :: split sep r
      else match split sep r with
           | [] => [String c EmptyString]
           | h :: t => String c h :: t
           end
  end.

(** [l[-1]] and [l[1]] on lists of strings ([IndexError] cannot occur at
    the two places the source indexes: see [split_nonempty] and
    [split_bearer_two]). *)
Definition last_item (l : list string) : string := List.last l EmptyString.
Definition item1 (l : list string) : string := List.nth 1 l EmptyString.

(** [sub in s] for strings. *)
Fixpoint contains (sub s : string) {struct s} : bool :=
  String.prefix sub s ||
  match s with
  | EmptyString => false
  | String _ r => contains sub r
  end.

(** [c in s] for a one-character [c]. *)
Fixpoint has_char (c : ascii) (s : string) : bool :=
  match s with
  | EmptyString => false
  | String x r => Ascii.eqb x c || has_char c r
  end.

(** [dict(pairs).get(key)]: a later pair overrides an earlier one. *)
Definition dict_get (key : string) (pairs : list (string * string))
  : option string :=
  fold_left
    (fun acc kv => if (fst kv =? key)%string then Some (snd kv) else acc)
    pairs None.

(** [x in l] for a list of integers. *)
Definition mem (x : Z) (l : list Z) : bool := existsb (Z.eqb x) l.

(** [d.get(key, default)] on a key that may be absent. *)
Definition get {A : Type} (field : option A) (default : A) : A :=
  match field with
  | Some v => v
  | None => default
  end.

(** [a == b] where either side may be [None]. *)
Definition eq_opt_int (a b : option Z) : bool :=
  match a, b with
  | None, None => true
  | Some x, Some y => Z.eqb x y
  | _, _ => false
  end.

Definition eq_opt_str (a b : option string) : bool :=
  match a, b with
  | None, None => true
  | Some x, Some y => (x =? y)%string
  | _, _ => false
  end.

Definition eq_opt_bool (a b : option bool) : bool :=
  match a, b with
  | None, None => true
  | Some x, Some y => Bool.eqb x y
  | _, _ => false
  end.

(** [str(i)] for an integer, and for [None]. *)
Definition str_int (z : Z) : string :=
  DecimalString.NilZero.string_of_int (Z.to_int z).

Definition str_opt_int (o : option Z) : string :=
  match o with
  | None => "None"
  | Some z => str_int z
  end.

End Py.

(* ===================================================================== *)
(** ** Stored documents and the permission evaluator *)
(* ===================================================================== *)

(** The four ACL keys of a stored document.  [None] is a missing key. *)
Record acl : Type := mkAcl
  { is_public : option bool
  ; owner_id : option Z
  ; allowed_readers : option (list Z)
  ; allowed_writers : option (list Z) }.

(** [CatalogService._can_read(doc, user_id)]. *)
Definition _can_read (doc : acl) (user_id : option Z) : bool :=
  if Py.get (is_public doc) false then true
  else match user_id with
       | None => false
       | Some u =>
           if Py.eq_opt_int (Some u) (owner_id doc) then true
           else if Py.mem u (Py.get (allowed_readers doc) []) then true
           else if Py.mem u (Py.get (allowed_writers doc) []) then true
           else false
       end.

(** [CatalogService._can_write(doc, user_id)]. *)
Definition _can_write (doc : acl) (user_id : option Z) : bool :=
  match user_id with
  | None => false
  | Some u =>
      if Py.eq_opt_int (Some u) (owner_id doc) then true
      else if Py.mem u (Py.get (allowed_writers doc) []) then true
      else false
  end.

(* ===================================================================== *)
(** ** [bson.ObjectId] *)
(* ===================================================================== *)

Module Bson.

(** An ObjectId is the byte string it wraps. *)
Definition oid : Type := list byte.

Fixpoint oid_eqb (a b : oid) : bool :=
  match a, b with
  | [], [] => true
  | x :: a', y :: b' => Byte.eqb x y && oid_eqb a' b'
  | _, _ => false
  end.

Definition hexval (c : ascii) : option N :=
  let n := N_of_ascii c in
  if (48 <=? n)%N && (n <=? 57)%N then Some (n - 48)%N
  else if (97 <=? n)%N && (n <=? 102)%N then Some (n - 87)%N
  else if (65 <=? n)%N && (n <=? 70)%N then Some (n - 55)%N
  else None.

Definition is_space (c : ascii) : bool :=
  let n := N_of_ascii c in
  (n =? 32)%N || ((9 <=? n)%N && (n <=? 13)%N).

(** [bytes.fromhex(s)]: pairs of hex digits, blanks allowed between pairs;
    [None] is its [ValueError]. *)
Fixpoint fromhex (s : string) : option (list byte) :=
  match s with
  | EmptyString => Some []
  | String c r =>
      if is_space c then fromhex r
      else match r with
           | EmptyString => None
           | String d r' =>
               match hexval c, hexval d with
               | Some h, Some l =>
                   match Byte.of_N (16 * h + l), fromhex r' with
                   | Some b, Some bs => Some (b :: bs)
                   | _, _ => None
                   end
               | _, _ => None
               end
           end
  end.

(** [ObjectId(s)] for a [str]: 24 characters accepted by [bytes.fromhex];
    [None] is [bson.errors.InvalidId]. *)
Definition ObjectId (s : string) : option oid :=
  if (String.length s =? 24)%nat then fromhex s else None.

Definition hexdigit (n : N) : ascii :=
  if (n <? 10)%N then ascii_of_N (48 + n) else ascii_of_N (87 + n).

(** [str(o)]: lower-case hexadecimal. *)
Fixpoint str (o : oid) : string :=
  match o with
  | [] => EmptyString
  | b :: o' =>
      let n := Byte.to_N b in
      String (hexdigit (n / 16)) (String (hexdigit (n mod 16)) (str o'))
  end.

Definition byte_of_N (n : N) : byte :=
  match Byte.of_N (n mod 256) with
  | Some b => b
  | None => x00
  end.

(** The [n]-th ObjectId the driver generates: twelve bytes, big-endian.
    (The driver's ids are time-, process- and counter-based; only their
    pairwise distinctness matters to the catalog.) *)
Definition generate (n : N) : oid :=
  map (fun i => byte_of_N (n / 256 ^ (11 - N.of_nat i)))
      (seq 0 12).

End Bson.

Import Bson.

(* ===================================================================== *)
(** ** Collections *)
(* ===================================================================== *)

(** A document of the [directories] collection. *)
Record directory : Type := mkDirectory
  { d_id : oid                      (* "_id" *)
  ; d_name : string                 (* "name" *)
  ; parent_id : option string       (* "parent_id"; [None] is null/missing *)
  ; d_acl :> acl }.

(** A document of the [files] collection. *)
Record file : Type := mkFile
  { f_id : oid                      (* "_id" *)
  ; f_name : string                 (* "name" *)
  ; parent_directory_id : option string
  ; external_file_id : string
  ; f_acl :> acl }.

Module Mongo.

(** [col.find_one(q)]. *)
Definition find_one {A : Type} (q : A -> bool) (col : list A) : option A :=
  List.find q col.

(** [col.find(q)]. *)
Definition find {A : Type} (q : A -> bool) (col : list A) : list A :=
  List.filter q col.

(** [col.count_documents(q)]. *)
Definition count_documents {A : Type} (q : A -> bool) (col : list A) : nat :=
  List.length (List.filter q col).

(** [col.insert_one(d)]. *)
Definition insert_one {A : Type} (d : A) (col : list A) : list A :=
  col ++ [d].

(** [col.update_one(q, {"$set": ...})]: the first match is rewritten. *)
Fixpoint update_one {A : Type} (q : A -> bool) (set : A -> A) (col : list A)
  : list A :=
  match col with
  | [] => []
  | d :: col' => if q d then set d :: col' else d :: update_one q set col'
  end.

(** [col.delete_one(q)]: the first match is removed. *)
Fixpoint delete_one {A : Type} (q : A -> bool) (col : list A) : list A :=
  match col with
  | [] => []
  | d :: col' => if q d then col' else d :: delete_one q col'
  end.

(** [col.delete_many(q)]. *)
Definition delete_many {A : Type} (q : A -> bool) (col : list A) : list A :=
  List.filter (fun d => negb (q d)) col.

End Mongo.

(** The three queries of the source. *)
Definition q_dir_id (o : oid) (d : directory) : bool := oid_eqb (d_id d) o.
Definition q_file_id (o : oid) (f : file) : bool := oid_eqb (f_id f) o.
Definition q_parent_id (pid : option string) (d : directory) : bool :=
  Py.eq_opt_str (parent_id d) pid.
Definition q_parent_directory_id (pid : option string) (f : file) : bool :=
  Py.eq_opt_str (parent_directory_id f) pid.

(* ===================================================================== *)
(** ** The world and the handler monad *)
(* ===================================================================== *)

Inductive StatusCode : Type :=
| UNAUTHENTICATED
| PERMISSION_DENIED
| NOT_FOUND
| INTERNAL.

Inductive exn : Type :=
| InvalidId (s : string)
| TypeError (s : string).

(** What a gRPC stub call gives back: a reply, or it raises. *)
Inductive reply (A : Type) : Type :=
| Reply (a : A)
| RpcError (e : string).
Arguments Reply {A} a.
Arguments RpcError {A} e.

Inductive log_record : Type :=
| LogError (msg : string)
| LogWarning (msg : string).

Record world : Type := mkWorld
  { dirs_col : list directory
  ; files_col : list file
  ; oid_counter : N
  ; auth_calls : list string        (* SessionIDs sent to the auth service *)
  ; file_calls : list string        (* UUIDs sent to the file service *)
  ; logger : list log_record }.

Inductive outcome (A : Type) : Type :=
| Ret (a : A)
| Abort (code : StatusCode) (details : string)
| Raise (e : exn).
Arguments Ret {A} a.
Arguments Abort {A} code details.
Arguments Raise {A} e.

Definition M (A : Type) : Type := world -> outcome A * world.

Definition ret {A : Type} (a : A) : M A := fun w => (Ret a, w).

Definition bind {A B : Type} (m : M A) (k : A -> M B) : M B :=
  fun w =>
    match m w with
    | (Ret a, w') => k a w'
    | (Abort c d, w') => (Abort c d, w')
    | (Raise e, w') => (Raise e, w')
    end.

(** [context.abort(code, details)]. *)
Definition abort {A : Type} (code : StatusCode) (details : string) : M A :=
  fun w => (Abort code details, w).

Definition raise {A : Type} (e : exn) : M A := fun w => (Raise e, w).

Definition gets {A : Type} (f : world -> A) : M A := fun w => (Ret (f w), w).

Definition modify (f : world -> world) : M unit := fun w => (Ret tt, f w).

(** [if c: body]. *)
Definition when (c : bool) (body : M unit) : M unit :=
  if c then body else ret tt.

Declare Scope catalog_scope.
Delimit Scope catalog_scope with catalog.
Notation "x <- c1 ;; c2" := (bind c1 (fun x => c2))
  (at level 61, c1 at next level, right associativity) : catalog_scope.
Notation "' pat <- c1 ;; c2" :=
  (bind c1 (fun x => match x with pat => c2 end))
  (at level 61, pat pattern, c1 at next level, right associativity)
  : catalog_scope.
Notation "c1 ;; c2" := (bind c1 (fun _ => c2))
  (at level 61, right associativity) : catalog_scope.
Local Open Scope catalog_scope.

Definition set_dirs (f : list directory -> list directory) (w : world) : world :=
  mkWorld (f (dirs_col w)) (files_col w) (oid_counter w)
          (auth_calls w) (file_calls w) (logger w).

Definition set_files (f : list file -> list file) (w : world) : world :=
  mkWorld (dirs_col w) (f (files_col w)) (oid_counter w)
          (auth_calls w) (file_calls w) (logger w).

Definition record_log (r : log_record) (w : world) : world :=
  mkWorld (dirs_col w) (files_col w) (oid_counter w)
          (auth_calls w) (file_calls w) (logger w ++ [r]).

(** [logger.error(...)], [logger.warning(...)]. *)
Definition log (r : log_record) : M unit := modify (record_log r).

(** A fresh ObjectId, as [insert_one] assigns it. *)
Definition fresh_oid : M oid :=
  fun w =>
    (Ret (generate (oid_counter w)),
     mkWorld (dirs_col w) (files_col w) (N.succ (oid_counter w))
             (auth_calls w) (file_calls w) (logger w)).

(** [ObjectId(s)] inside a handler. *)
Definition ObjectId_ (s : string) : M oid :=
  match ObjectId s with
  | Some o => ret o
  | None => raise (InvalidId s)
  end.

(** The two stubs.  [AuthStub]: [GetCurrentUser(SessionData(SessionID=t))],
    answering the user's [ID]; [FileStub]:
    [DeleteFile(DeleteFileRequest(UUID=u, UserID=1))]. *)
Definition AuthStub : Type := string -> reply Z.
Definition FileStub : Type := string -> reply unit.

(** The outbound calls are recorded in the world. *)
Definition record_auth_call (SessionID : string) (w : world) : world :=
  mkWorld (dirs_col w) (files_col w) (oid_counter w)
          (auth_calls w ++ [SessionID]) (file_calls w) (logger w).

Definition record_file_call (UUID : string) (w : world) : world :=
  mkWorld (dirs_col w) (files_col w) (oid_counter w)
          (auth_calls w) (file_calls w ++ [UUID]) (logger w).

Definition GetCurrentUser (stub : AuthStub) (SessionID : string) : M (reply Z) :=
  fun w => (Ret (stub SessionID), record_auth_call SessionID w).

Definition FileStub_DeleteFile (stub : FileStub) (UUID : string) : M (reply unit) :=
  fun w => (Ret (stub UUID), record_file_call UUID w).

(* ===================================================================== *)
(** ** Messages of [catalog.proto], as the source builds and reads them *)
(* ===================================================================== *)

Definition Metadata : Type := list (string * string).

Record HandlerCallDetails : Type := mkDetails
  { method : string
  ; invocation_metadata : Metadata }.

Record CreateDirectoryRequest : Type := mkCreateDirectoryRequest
  { cd_name : string
  ; cd_parent_id : string
  ; cd_is_public : bool
  ; cd_allowed_readers : list Z
  ; cd_allowed_writers : list Z }.

Record UpdateDirectoryRequest : Type := mkUpdateDirectoryRequest
  { ud_id : string
  ; ud_name : string
  ; ud_parent_id : string
  ; ud_is_public : bool
  ; ud_allowed_readers : list Z
  ; ud_allowed_writers : list Z }.

Record DeleteDirectoryRequest : Type := mkDeleteDirectoryRequest
  { dd_id : string }.

Record GetDirectoryRequest : Type := mkGetDirectoryRequest
  { directory_id : string }.

Record RegisterFileRequest : Type := mkRegisterFileRequest
  { rf_name : string
  ; rf_parent_directory_id : string
  ; rf_external_file_id : string
  ; rf_is_public : bool
  ; rf_allowed_readers : list Z
  ; rf_allowed_writers : list Z }.

Record UpdateFileRequest : Type := mkUpdateFileRequest
  { uf_id : string
  ; uf_name : string
  ; uf_is_public : bool
  ; uf_allowed_readers : list Z
  ; uf_allowed_writers : list Z }.

Record DeleteFileRequest : Type := mkDeleteFileRequest
  { df_id : string }.

Record DirectoryResponse : Type := mkDirectoryResponse
  { dr_id : string
  ; dr_name : string
  ; dr_parent_id : string
  ; dr_is_public : bool
  ; dr_owner_id : Z
  ; dr_allowed_readers : list Z
  ; dr_allowed_writers : list Z }.

Record FileResponse : Type := mkFileResponse
  { fr_id : string
  ; fr_name : string
  ; fr_external_file_id : string
  ; fr_is_public : bool
  ; fr_owner_id : Z
  ; fr_allowed_readers : list Z
  ; fr_allowed_writers : list Z }.

Record DeleteResponse : Type := mkDeleteResponse
  { success : bool
  ; message : string }.

Record DirectoryContentResponse : Type := mkDirectoryContentResponse
  { directories : list DirectoryResponse
  ; files : list FileResponse }.

(** The response a handler builds from a stored directory:
    [DirectoryResponse(id=str(d["_id"]), name=d["name"],
       parent_id=str(d.get("parent_id") or ""),
       is_public=d.get('is_public', False), owner_id=d.get('owner_id'),
       allowed_readers=d.get('allowed_readers', []),
       allowed_writers=d.get('allowed_writers', []))]
    (a keyword argument that is [None] leaves the field at its default). *)
Definition directory_response (d : directory) : DirectoryResponse :=
  {| dr_id := str (d_id d)
   ; dr_name := d_name d
   ; dr_parent_id := Py.get (parent_id d) ""
   ; dr_is_public := Py.get (is_public d) false
   ; dr_owner_id := Py.get (owner_id d) 0%Z
   ; dr_allowed_readers := Py.get (allowed_readers d) []
   ; dr_allowed_writers := Py.get (allowed_writers d) [] |}.

Definition file_response (f : file) : FileResponse :=
  {| fr_id := str (f_id f)
   ; fr_name := f_name f
   ; fr_external_file_id := external_file_id f
   ; fr_is_public := Py.get (is_public f) false
   ; fr_owner_id := Py.get (owner_id f) 0%Z
   ; fr_allowed_readers := Py.get (allowed_readers f) []
   ; fr_allowed_writers := Py.get (allowed_writers f) [] |}.

(* ===================================================================== *)
(** ** [AuthInterceptor] *)
(* ===================================================================== *)

(** A unary-unary method handler: the behaviour run on a request. *)
Definition RpcMethodHandler (Req Resp : Type) : Type :=
  Req -> Metadata -> M Resp.

Record AuthInterceptor : Type := mkAuthInterceptor
  { stub : AuthStub }.

(** [AuthInterceptor._abort(code, details)]. *)
Definition _abort {Req Resp : Type} (code : StatusCode) (details : string)
  : RpcMethodHandler Req Resp :=
  fun request context => abort code details.

(** [token.split(' ')[1]], taken when [token.startswith('Bearer ')]. *)
Definition bearer (token : string) : string :=
  if Py.startswith token "Bearer " then Py.item1 (Py.split " " token)
  else token.

(** ["Get" in method_name.split('/')[-1]]. *)
Definition is_read_op (method_name : string) : bool :=
  Py.contains "Get" (Py.last_item (Py.split "/" method_name)).

(** The interceptor's [token] once lines 55-57 have run. *)
Definition interceptor_token (metadata : Metadata) : option string :=
  let token := Py.dict_get "authorization" metadata in
  match token with
  | Some t =>
      if Py.truthy t && Py.startswith t "Bearer "
      then Some (Py.item1 (Py.split " " t))
      else token
  | None => token
  end.

(** [AuthInterceptor.intercept_service]. *)
Definition intercept_service {Req Resp : Type} (self : AuthInterceptor)
    (continuation : HandlerCallDetails -> RpcMethodHandler Req Resp)
    (handler_call_details : HandlerCallDetails)
  : M (RpcMethodHandler Req Resp) :=
  let method_name := method handler_call_details in
  let is_read_op := is_read_op method_name in
  let metadata := invocation_metadata handler_call_details in
  let token := interceptor_token metadata in
  is_authenticated <-
    match token with
    | Some t =>
        if Py.truthy t then
          r <- GetCurrentUser (stub self) t ;;
          match r with
          | Reply _ => ret true
          | RpcError _ => ret false
          end
        else ret false
    | None => ret false
    end ;;
  if is_authenticated : bool then ret (continuation handler_call_details)
  else if is_read_op then ret (continuation handler_call_details)
  else ret (_abort UNAUTHENTICATED "Auth required").

(* ===================================================================== *)
(** ** [FileServiceClient] *)
(* ===================================================================== *)

Record FileServiceClient : Type := mkFileServiceClient
  { fs_stub : FileStub }.

(** The [for] loop of [delete_files]. *)
Fixpoint delete_files_loop (self : FileServiceClient) (external_ids : list string)
  : M unit :=
  match external_ids with
  | [] => ret tt
  | ext_id :: rest =>
      r <- FileStub_DeleteFile (fs_stub self) ext_id ;;
      match r with
      | Reply _ => ret tt
      | RpcError e => log (LogError ("File Service error: " ++ e))
      end ;;
      delete_files_loop self rest
  end.

(** [FileServiceClient.delete_files]. *)
Definition delete_files (self : FileServiceClient) (external_ids : list string)
  : M unit :=
  match external_ids with
  | [] => ret tt
  | _ :: _ => delete_files_loop self external_ids
  end.

(* ===================================================================== *)
(** ** [CatalogService] *)
(* ===================================================================== *)

Record CatalogService : Type := mkCatalogService
  { file_service : FileServiceClient
  ; auth_stub : AuthStub }.

(** [CatalogService._get_user_identity]. *)
Definition _get_user_identity (self : CatalogService) (context : Metadata)
  : M (option Z * bool) :=
  let meta := context in
  let token := Py.dict_get "authorization" meta in
  match token with
  | None => ret (None, false)
  | Some token =>
      if negb (Py.truthy token) then ret (None, false)
      else
        let token := bearer token in
        user <- GetCurrentUser (auth_stub self) token ;;
        match user with
        | Reply ID => ret (Some ID, true)
        | RpcError _ => ret (None, false)
        end
  end.

(** [CatalogService.CreateDirectory]. *)
Definition CreateDirectory (self : CatalogService)
    (request : CreateDirectoryRequest) (context : Metadata)
  : M DirectoryResponse :=
  '(user_id, is_auth) <- _get_user_identity self context ;;
  when (negb is_auth) (abort UNAUTHENTICATED "Auth required") ;;
  inserted_id <- fresh_oid ;;
  let doc :=
    {| d_id := inserted_id
     ; d_name := cd_name request
     ; parent_id := if Py.truthy (cd_parent_id request)
                    then Some (cd_parent_id request) else None
     ; d_acl := {| is_public := Some (cd_is_public request)
                 ; owner_id := user_id
                 ; allowed_readers := Some (cd_allowed_readers request)
                 ; allowed_writers := Some (cd_allowed_writers request) |} |} in
  modify (set_dirs (Mongo.insert_one doc)) ;;
  ret (directory_response doc).

(** The [update_fields] dictionary of [UpdateDirectory]: a key is [Some]
    when the source assigns it. *)
Record dir_update_fields : Type := mkDirUpdate
  { set_name : option string
  ; set_parent_id : option (option string)
  ; set_is_public : option bool
  ; set_allowed_readers : option (list Z)
  ; set_allowed_writers : option (list Z) }.

(** [bool(update_fields)]: the dictionary has a key. *)
Definition dir_update_nonempty (u : dir_update_fields) : bool :=
  match set_name u, set_parent_id u, set_is_public u,
        set_allowed_readers u, set_allowed_writers u with
  | None, None, None, None, None => false
  | _, _, _, _, _ => true
  end.

(** [{"$set": update_fields}] on a directory. *)
Definition dir_set (u : dir_update_fields) (d : directory) : directory :=
  {| d_id := d_id d
   ; d_name := Py.get (set_name u) (d_name d)
   ; parent_id := Py.get (set_parent_id u) (parent_id d)
   ; d_acl :=
       {| is_public := match set_is_public u with
                       | Some b => Some b
                       | None => is_public d
                       end
        ; owner_id := owner_id d
        ; allowed_readers := match set_allowed_readers u with
                             | Some l => Some l
                             | None => allowed_readers d
                             end
        ; allowed_writers := match set_allowed_writers u with
                             | Some l => Some l
                             | None => allowed_writers d
                             end |} |}.

(** Lines 183-196 of [UpdateDirectory]. *)
Definition dir_update_fields_of (request : UpdateDirectoryRequest)
    (doc : directory) : dir_update_fields :=
  {| set_name := if Py.truthy (ud_name request)
                 then Some (ud_name request) else None
   ; set_parent_id :=
       if negb (ud_parent_id request =? "no_change")%string
       then Some (if Py.truthy (ud_parent_id request)
                  then Some (ud_parent_id request) else None)
       else None
   ; set_is_public :=
       if negb (Py.eq_opt_bool (Some (ud_is_public request)) (is_public doc))
       then Some (ud_is_public request) else None
   ; set_allowed_readers :=
       match ud_allowed_readers request with
       | [] => None
       | _ :: _ => Some (ud_allowed_readers request)
       end
   ; set_allowed_writers :=
       match ud_allowed_writers request with
       | [] => None
       | _ :: _ => Some (ud_allowed_writers request)
       end |}.

(** [CatalogService.UpdateDirectory]. *)
Definition UpdateDirectory (self : CatalogService)
    (request : UpdateDirectoryRequest) (context : Metadata)
  : M DirectoryResponse :=
  '(user_id, is_auth) <- _get_user_identity self context ;;
  when (negb is_auth) (abort UNAUTHENTICATED "Auth required") ;;
  o <- ObjectId_ (ud_id request) ;;
  doc <- gets (fun w => Mongo.find_one (q_dir_id o) (dirs_col w)) ;;
  match doc with
  | None => abort NOT_FOUND "Directory not found"
  | Some doc =>
      when (negb (_can_write doc user_id))
           (abort PERMISSION_DENIED "No write permission") ;;
      let update_fields := dir_update_fields_of request doc in
      when (dir_update_nonempty update_fields)
           (o <- ObjectId_ (ud_id request) ;;
            modify (set_dirs (Mongo.update_one (q_dir_id o)
                                               (dir_set update_fields)))) ;;
      o <- ObjectId_ (ud_id request) ;;
      updated <- gets (fun w => Mongo.find_one (q_dir_id o) (dirs_col w)) ;;
      match updated with
      | Some updated => ret (directory_response updated)
      | None =>
          (* [updated["_id"]] on [None], caught by [except Exception] *)
          log (LogError "DB Error: 'NoneType' object is not subscriptable") ;;
          abort INTERNAL "Update failed"
      end
  end.

(** [CatalogService.DeleteDirectory]. *)
Definition DeleteDirectory (self : CatalogService)
    (request : DeleteDirectoryRequest) (context : Metadata)
  : M DeleteResponse :=
  '(user_id, is_auth) <- _get_user_identity self context ;;
  when (negb is_auth) (abort UNAUTHENTICATED "Auth required") ;;
  o <- ObjectId_ (dd_id request) ;;
  doc <- gets (fun w => Mongo.find_one (q_dir_id o) (dirs_col w)) ;;
  match doc with
  | None => abort NOT_FOUND "Not found"
  | Some doc =>
      when (negb (Py.eq_opt_int (owner_id doc) user_id))
           (abort PERMISSION_DENIED "Only owner can delete") ;;
      n <- gets (fun w =>
             Mongo.count_documents (q_parent_id (Some (dd_id request)))
                                   (dirs_col w)) ;;
      if (0 <? n)%nat then
        ret {| success := false; message := "Directory not empty" |}
      else
        modify (set_files
          (Mongo.delete_many (q_parent_directory_id (Some (dd_id request))))) ;;
        o <- ObjectId_ (dd_id request) ;;
        modify (set_dirs (Mongo.delete_one (q_dir_id o))) ;;
        ret {| success := true; message := "Deleted" |}
  end.

(** The two filtering loops of [GetDirectoryContent]. *)
Definition visible_dirs_loop (user_id : option Z) (all_subdirs : list directory)
  : list DirectoryResponse :=
  fold_left
    (fun (visible_dirs : list DirectoryResponse) (d : directory) =>
       if _can_read d user_id then visible_dirs ++ [directory_response d]
       else visible_dirs)
    all_subdirs [].

Definition visible_files_loop (user_id : option Z) (all_files : list file)
  : list FileResponse :=
  fold_left
    (fun (visible_files : list FileResponse) (f : file) =>
       if _can_read f user_id then visible_files ++ [file_response f]
       else visible_files)
    all_files [].

(** [CatalogService.GetDirectoryContent]. *)
Definition GetDirectoryContent (self : CatalogService)
    (request : GetDirectoryRequest) (context : Metadata)
  : M DirectoryContentResponse :=
  '(user_id, _) <- _get_user_identity self context ;;
  let pid := if Py.truthy (directory_id request)
             then Some (directory_id request) else None in
  match pid with
  | Some p =>
      o <- ObjectId_ p ;;
      target_dir <- gets (fun w => Mongo.find_one (q_dir_id o) (dirs_col w)) ;;
      match target_dir with
      | None => abort NOT_FOUND "Directory not found"
      | Some target_dir =>
          when (negb (_can_read target_dir user_id))
               (log (LogWarning ("Access DENIED for user "
                                   ++ Py.str_opt_int user_id
                                   ++ " to dir " ++ p)) ;;
                abort PERMISSION_DENIED
                      "You do not have permission to view this directory")
      end
  | None => ret tt
  end ;;
  all_subdirs <- gets (fun w => Mongo.find (q_parent_id pid) (dirs_col w)) ;;
  all_files <- gets (fun w =>
                 Mongo.find (q_parent_directory_id pid) (files_col w)) ;;
  ret {| directories := visible_dirs_loop user_id all_subdirs
       ; files := visible_files_loop user_id all_files |}.

(** [CatalogService.RegisterFile]. *)
Definition RegisterFile (self : CatalogService)
    (request : RegisterFileRequest) (context : Metadata)
  : M FileResponse :=
  '(user_id, is_auth) <- _get_user_identity self context ;;
  when (negb is_auth) (abort UNAUTHENTICATED "Auth required") ;;
  inserted_id <- fresh_oid ;;
  let doc :=
    {| f_id := inserted_id
     ; f_name := rf_name request
     ; parent_directory_id := Some (rf_parent_directory_id request)
     ; external_file_id := rf_external_file_id request
     ; f_acl := {| is_public := Some (rf_is_public request)
                 ; owner_id := user_id
                 ; allowed_readers := Some (rf_allowed_readers request)
                 ; allowed_writers := Some (rf_allowed_writers request) |} |} in
  modify (set_files (Mongo.insert_one doc)) ;;
  ret (file_response doc).

(** The [update_fields] dictionary of [UpdateFile]. *)
Record file_update_fields : Type := mkFileUpdate
  { fset_name : option string
  ; fset_is_public : option bool
  ; fset_allowed_readers : option (list Z)
  ; fset_allowed_writers : option (list Z) }.

Definition file_update_nonempty (u : file_update_fields) : bool :=
  match fset_name u, fset_is_public u,
        fset_allowed_readers u, fset_allowed_writers u with
  | None, None, None, None => false
  | _, _, _, _ => true
  end.

(** [{"$set": update_fields}] on a file. *)
Definition file_set (u : file_update_fields) (f : file) : file :=
  {| f_id := f_id f
   ; f_name := Py.get (fset_name u) (f_name f)
   ; parent_directory_id := parent_directory_id f
   ; external_file_id := external_file_id f
   ; f_acl :=
       {| is_public := match fset_is_public u with
                       | Some b => Some b
                       | None => is_public f
                       end
        ; owner_id := owner_id f
        ; allowed_readers := match fset_allowed_readers u with
                             | Some l => Some l
                             | None => allowed_readers f
                             end
        ; allowed_writers := match fset_allowed_writers u with
                             | Some l => Some l
                             | None => allowed_writers f
                             end |} |}.

(** Lines 309-319 of [UpdateFile]. *)
Definition file_update_fields_of (request : UpdateFileRequest) (doc : file)
  : file_update_fields :=
  {| fset_name := if Py.truthy (uf_name request)
                  then Some (uf_name request) else None
   ; fset_is_public :=
       if negb (Py.eq_opt_bool (Some (uf_is_public request)) (is_public doc))
       then Some (uf_is_public request) else None
   ; fset_allowed_readers :=
       match uf_allowed_readers request with
       | [] => None
       | _ :: _ => Some (uf_allowed_readers request)
       end
   ; fset_allowed_writers :=
       match uf_allowed_writers request with
       | [] => None
       | _ :: _ => Some (uf_allowed_writers request)
       end |}.

(** [CatalogService.UpdateFile]. *)
Definition UpdateFile (self : CatalogService)
    (request : UpdateFileRequest) (context : Metadata)
  : M FileResponse :=
  '(user_id, is_auth) <- _get_user_identity self context ;;
  when (negb is_auth) (abort UNAUTHENTICATED "Auth required") ;;
  o <- ObjectId_ (uf_id request) ;;
  doc <- gets (fun w => Mongo.find_one (q_file_id o) (files_col w)) ;;
  match doc with
  | None => abort NOT_FOUND "File not found"
  | Some doc =>
      when (negb (_can_write doc user_id))
           (abort PERMISSION_DENIED "No write permission") ;;
      let update_fields := file_update_fields_of request doc in
      when (file_update_nonempty update_fields)
           (o <- ObjectId_ (uf_id request) ;;
            modify (set_files (Mongo.update_one (q_file_id o)
                                                (file_set update_fields)))) ;;
      o <- ObjectId_ (uf_id request) ;;
      updated <- gets (fun w => Mongo.find_one (q_file_id o) (files_col w)) ;;
      match updated with
      | Some updated => ret (file_response updated)
      | None => raise (TypeError "'NoneType' object is not subscriptable")
      end
  end.

(** [CatalogService.DeleteFile]. *)
Definition DeleteFile (self : CatalogService)
    (request : DeleteFileRequest) (context : Metadata)
  : M DeleteResponse :=
  '(user_id, is_auth) <- _get_user_identity self context ;;
  when (negb is_auth) (abort UNAUTHENTICATED "Auth required") ;;
  o <- ObjectId_ (df_id request) ;;
  doc <- gets (fun w => Mongo.find_one (q_file_id o) (files_col w)) ;;
  match doc with
  | None => abort NOT_FOUND "File not found"
  | Some doc =>
      when (negb (Py.eq_opt_int (owner_id doc) user_id))
           (abort PERMISSION_DENIED "Only owner can delete file") ;;
      o <- ObjectId_ (df_id request) ;;
      modify (set_files (Mongo.delete_one (q_file_id o))) ;;
      delete_files (file_service self) [external_file_id doc] ;;
      ret {| success := true; message := "Deleted" |}
  end.

(** The server of [serve()]: the interceptor in front of a handler. *)
Definition serve {Req Resp : Type} (interceptor : AuthInterceptor)
    (handler : RpcMethodHandler Req Resp)
    (handler_call_details : HandlerCallDetails) (request : Req) : M Resp :=
  h <- intercept_service interceptor (fun _ => handler) handler_call_details ;;
  h request (invocation_metadata handler_call_details).

(* ===================================================================== *)
(** ** The mock collaborators of the repository *)
(* ===================================================================== *)

(** [auth_service/main.py]: [GetCurrentUser] looks the session up in
    [ACTIVE_SESSIONS] and aborts when it is unknown. *)
Definition AuthServiceMock (ACTIVE_SESSIONS : list (string * Z)) : AuthStub :=
  fun SessionID =>
    match List.find (fun kv => (fst kv =? SessionID)%string)
                    (rev ACTIVE_SESSIONS) with
    | Some kv => Reply (snd kv)
    | None => RpcError "Invalid Session"
    end.

(** [file_service/main.py]: [DeleteFile] always answers [Empty]. *)
Definition FileServiceMock : FileStub := fun _ => Reply tt.

(** A blob collaborator that cannot be reached. *)
Definition FileServiceDown : FileStub := fun _ => RpcError "unavailable".

(** [AuthServiceMock.CreateSession]: [ACTIVE_SESSIONS[SessionID] = user].
    The dictionary is the list of its assignments, a later one overriding
    an earlier one; a user is represented by its [ID], the only field the
    catalog reads. *)
Definition CreateSession (ACTIVE_SESSIONS : list (string * Z))
    (SessionID : string) (user : Z) : list (string * Z) :=
  ACTIVE_SESSIONS ++ [(SessionID, user)].

(** [AuthServiceMock.Logout]:
    [if SessionID in ACTIVE_SESSIONS: del ACTIVE_SESSIONS[SessionID]]. *)
Definition Logout (ACTIVE_SESSIONS : list (string * Z)) (SessionID : string)
  : list (string * Z) :=
  if existsb (fun kv => (fst kv =? SessionID)%string) ACTIVE_SESSIONS
  then filter (fun kv => negb (fst kv =? SessionID)%string) ACTIVE_SESSIONS
  else ACTIVE_SESSIONS.

(** The document [CreateDirectory] builds (lines 153-160) once the store
    has assigned [inserted_id], and the one [RegisterFile] builds (lines
    283-291). *)
Definition created_directory (request : CreateDirectoryRequest)
    (user_id : option Z) (inserted_id : oid) : directory :=
  {| d_id := inserted_id
   ; d_name := cd_name request
   ; parent_id := if Py.truthy (cd_parent_id request)
                  then Some (cd_parent_id request) else None
   ; d_acl := {| is_public := Some (cd_is_public request)
               ; owner_id := user_id
               ; allowed_readers := Some (cd_allowed_readers request)
               ; allowed_writers := Some (cd_allowed_writers request) |} |}.


(** The seven methods [CatalogServiceServicer] registers. *)
Definition catalog_methods : list string :=
  [ "CreateDirectory"; "UpdateDirectory"; "DeleteDirectory"
  ; "GetDirectoryContent"; "RegisterFile"; "UpdateFile"; "DeleteFile" ]%string.

(* ===================================================================== *)
(** ** Sample data: the identities and sessions of the test suite *)
(* ===================================================================== *)

Definition id_owner : Z := 100.
Definition id_writer : Z := 200.
Definition id_reader : Z := 300.
Definition id_stranger : Z := 999.

Definition sessions : list (string * Z) :=
  [ ("sess-owner", id_owner); ("sess-writer", id_writer)
  ; ("sess-reader", id_reader); ("sess-stranger", id_stranger) ].

Definition meta_owner : Metadata := [("authorization", "Bearer sess-owner")].
Definition meta_writer : Metadata := [("authorization", "Bearer sess-writer")].
Definition meta_reader : Metadata := [("authorization", "Bearer sess-reader")].
Definition meta_anonymous : Metadata := [].

Definition svc : CatalogService :=
  mkCatalogService (mkFileServiceClient FileServiceMock)
                   (AuthServiceMock sessions).

Definition svc_blob_down : CatalogService :=
  mkCatalogService (mkFileServiceClient FileServiceDown)
                   (AuthServiceMock sessions).

Definition interceptor : AuthInterceptor :=
  mkAuthInterceptor (AuthServiceMock sessions).

(** An ACL with one reader and one writer, as tests 15 and 16 build it. *)
Definition acl_shared : acl :=
  {| is_public := Some false
   ; owner_id := Some id_owner
   ; allowed_readers := Some [id_reader]
   ; allowed_writers := Some [id_writer] |}.

(** The ACL of a document written before the ACL keys existed. *)
Definition acl_legacy : acl :=
  {| is_public := None
   ; owner_id := None
   ; allowed_readers := None
   ; allowed_writers := None |}.

Definition oid_docs : oid := generate 1.
Definition oid_sub : oid := generate 2.
Definition oid_f1 : oid := generate 3.

Definition dir_docs : directory :=
  {| d_id := oid_docs
   ; d_name := "Docs"
   ; parent_id := None
   ; d_acl := acl_shared |}.

Definition dir_sub : directory :=
  {| d_id := oid_sub
   ; d_name := "Sub"
   ; parent_id := Some (str oid_docs)
   ; d_acl := {| is_public := Some true
               ; owner_id := Some id_owner
               ; allowed_readers := Some []
               ; allowed_writers := Some [] |} |}.

Definition file_f1 : file :=
  {| f_id := oid_f1
   ; f_name := "f1"
   ; parent_directory_id := Some (str oid_docs)
   ; external_file_id := "e1"
   ; f_acl := {| is_public := Some false
               ; owner_id := Some id_owner
               ; allowed_readers := Some []
               ; allowed_writers := Some [id_writer] |} |}.

(** [Docs] holding one file and no sub-directory (test 09). *)
Definition world_with_file : world :=
  mkWorld [dir_docs] [file_f1] 4 [] [] [].

(** [Docs] holding one sub-directory and one file (tests 04 and 10). *)
Definition world_with_subdir : world :=
  mkWorld [dir_docs; dir_sub] [file_f1] 4 [] [] [].

(** The empty catalog. *)
Definition world_empty : world := mkWorld [] [] 0 [] [] [].

(** A directory whose id has a hexadecimal letter, holding one
    sub-directory and one file, both public. *)
Definition oid_arch : oid := generate 10.

Definition dir_arch : directory :=
  {| d_id := oid_arch
   ; d_name := "Archive"
   ; parent_id := None
   ; d_acl := acl_shared |}.

Definition dir_arch_sub : directory :=
  {| d_id := generate 11
   ; d_name := "Old"
   ; parent_id := Some (str oid_arch)
   ; d_acl := {| is_public := Some true
               ; owner_id := Some id_owner
               ; allowed_readers := Some []
               ; allowed_writers := Some [] |} |}.

Definition file_arch : file :=
  {| f_id := generate 12
   ; f_name := "old.txt"
   ; parent_directory_id := Some (str oid_arch)
   ; external_file_id := "e-old"
   ; f_acl := {| is_public := Some true
               ; owner_id := Some id_owner
               ; allowed_readers := Some []
               ; allowed_writers := Some [] |} |}.

Definition world_arch : world :=
  mkWorld [dir_arch; dir_arch_sub] [file_arch] 13 [] [] [].

(** The id of [dir_arch] as the service reports it, and the same id
    written in upper case. *)
Definition id_arch : string := "00000000000000000000000a".
Definition id_arch_upper : string := "00000000000000000000000A".

(** Test 09: a directory holding one file is deleted by its owner. *)
Definition test_09_delete_directory_with_files : M DeleteResponse :=
  d <- CreateDirectory svc
         (mkCreateDirectoryRequest "WithFiles" "" false [] []) meta_owner ;;
  RegisterFile svc
    (mkRegisterFileRequest "f1" (dr_id d) "e1" false [] []) meta_owner ;;
  DeleteDirectory svc (mkDeleteDirectoryRequest (dr_id d)) meta_owner.

(** Test 10: a directory holding a sub-directory is not deleted. *)
Definition test_10_fail_delete_directory_with_subdirectories
  : M DeleteResponse :=
  parent <- CreateDirectory svc
              (mkCreateDirectoryRequest "ParentSafe" "" false [] [])
              meta_owner ;;
  CreateDirectory svc
    (mkCreateDirectoryRequest "ChildSafe" (dr_id parent) false [] [])
    meta_owner ;;
  DeleteDirectory svc (mkDeleteDirectoryRequest (dr_id parent)) meta_owner.

(** Test 13: an anonymous caller lists a public directory. *)
Definition test_13_public_vs_private_anonymous : M (list string) :=
  root <- CreateDirectory svc
            (mkCreateDirectoryRequest "ACL_Root" "" true [] []) meta_owner ;;
  CreateDirectory svc
    (mkCreateDirectoryRequest "ACL_Pub" (dr_id root) true [] [])
    meta_owner ;;
  CreateDirectory svc
    (mkCreateDirectoryRequest "ACL_Priv" (dr_id root) false [] [])
    meta_owner ;;
  content <- GetDirectoryContent svc (mkGetDirectoryRequest (dr_id root))
                                 meta_anonymous ;;
  ret (map dr_name (directories content)).

(* ===================================================================== *)
(** ** Notions the properties are stated with *)
(* ===================================================================== *)

(** [seg] is the last path segment of [m]: it has no slash and is what
    follows the last slash of [m] (all of [m] when there is none). *)
Definition spec_last_path_segment (m seg : string) : Prop :=
  Py.has_char "/" seg = false /\
  exists pre, m = (pre ++ seg)%string /\
              (pre = EmptyString \/ exists p, pre = (p ++ "/")%string).

(** [sub] occurs in [s]. *)
Definition spec_substring (sub s : string) : Prop :=
  exists a b, s = (a ++ sub ++ b)%string.

(** Partial update, field by field, in the words of the specification:
    [req] is the request's value, [stored] the value before the update and
    [updated] the value after it. *)
Definition spec_partial_name (req stored updated : string) : Prop :=
  (req <> EmptyString -> updated = req) /\
  (req = EmptyString -> updated = stored).


Definition spec_partial_is_public (req : bool) (stored updated : option bool)
  : Prop :=
  (stored <> Some req -> updated = Some req) /\
  (stored = Some req -> updated = stored).

Definition spec_partial_list (req : list Z) (stored updated : option (list Z))
  : Prop :=
  (req <> [] -> updated = Some req) /\
  (req = [] -> updated = stored).

(** The direct children of a container ([None] is the root) that a caller
    may read, in store order. *)
Definition spec_visible_dirs (w : world) (container : option string)
    (user_id : option Z) : list directory :=
  filter (fun d : directory => _can_read d user_id)
         (filter (q_parent_id container) (dirs_col w)).

Definition spec_visible_files (w : world) (container : option string)
    (user_id : option Z) : list file :=
  filter (fun f : file => _can_read f user_id)
         (filter (q_parent_directory_id container) (files_col w)).

Definition spec_listing (w : world) (container : option string)
    (user_id : option Z) : DirectoryContentResponse :=
  {| directories := map directory_response
                        (spec_visible_dirs w container user_id)
   ; files := map file_response (spec_visible_files w container user_id) |}.


(** The store of a world: what the catalog persists. *)
Definition store (w : world) : list directory * list file :=
  (dirs_col w, files_col w).

(* ===================================================================== *)
(** * Properties *)
(* ===================================================================== *)

(** ** Python built-ins *)

Lemma mem_In (x : Z) (l : list Z) : Py.mem x l = true <-> In x l.
Proof.
  unfold Py.mem. rewrite existsb_exists. split.
  - intros [y [Hy Heq]]. apply Z.eqb_eq in Heq. now subst.
  - intros H. exists x. split; [assumption | apply Z.eqb_refl].
Qed.

Lemma eq_opt_int_Some (u : Z) (o : option Z) :
  Py.eq_opt_int (Some u) o = true <-> o = Some u.
Proof.
  destruct o as [v|]; simpl.
  - rewrite Z.eqb_eq. split; congruence.
  - split; discriminate.
Qed.

Lemma eq_opt_int_true (a b : option Z) : Py.eq_opt_int a b = true <-> a = b.
Proof.
  destruct a as [x|], b as [y|]; simpl; try (split; congruence).
  rewrite Z.eqb_eq. split; congruence.
Qed.

(** ** The permission evaluator *)

Lemma can_write_can_read (doc : acl) (user_id : option Z) :
  _can_write doc user_id = true -> _can_read doc user_id = true.
Proof.
  unfold _can_write, _can_read. destruct user_id as [u|]; [|discriminate].
  destruct (Py.get (is_public doc) false); [reflexivity|].
  destruct (Py.eq_opt_int (Some u) (owner_id doc)); [reflexivity|].
  destruct (Py.mem u (Py.get (allowed_writers doc) [])); [|discriminate].
  now destruct (Py.mem u (Py.get (allowed_readers doc) [])).
Qed.

Lemma can_read_true (doc : acl) (user_id : option Z) :
  _can_read doc user_id = true <->
  Py.get (is_public doc) false = true \/
  exists u, user_id = Some u /\
            (owner_id doc = Some u \/
             In u (Py.get (allowed_readers doc) []) \/
             In u (Py.get (allowed_writers doc) [])).
Proof.
  unfold _can_read.
  destruct (Py.get (is_public doc) false) eqn:Hpub.
  { split; auto. }
  destruct user_id as [u|].
  2:{ split; [discriminate|]. intros [H|[u [H _]]]; discriminate. }
  destruct (Py.eq_opt_int (Some u) (owner_id doc)) eqn:Hown.
  { apply eq_opt_int_Some in Hown. split; eauto 6. }
  destruct (Py.mem u (Py.get (allowed_readers doc) [])) eqn:Hr.
  { apply mem_In in Hr. split; eauto 6. }
  destruct (Py.mem u (Py.get (allowed_writers doc) [])) eqn:Hw.
  { apply mem_In in Hw. split; eauto 7. }
  split; [discriminate|].
  intros [H|[v [Hv [H|[H|H]]]]]; try discriminate;
    injection Hv as <-.
  - apply eq_opt_int_Some in H. congruence.
  - apply mem_In in H. congruence.
  - apply mem_In in H. congruence.
Qed.

Lemma can_write_true (doc : acl) (user_id : option Z) :
  _can_write doc user_id = true <->
  exists u, user_id = Some u /\
            (owner_id doc = Some u \/
             In u (Py.get (allowed_writers doc) [])).
Proof.
  unfold _can_write. destruct user_id as [u|].
  2:{ split; [discriminate|]. intros [u [H _]]. discriminate. }
  destruct (Py.eq_opt_int (Some u) (owner_id doc)) eqn:Hown.
  { apply eq_opt_int_Some in Hown. split; eauto. }
  destruct (Py.mem u (Py.get (allowed_writers doc) [])) eqn:Hw.
  { apply mem_In in Hw. split; eauto. }
  split; [discriminate|].
  intros [v [Hv [H|H]]]; injection Hv as <-.
  - apply eq_opt_int_Some in H. congruence.
  - apply mem_In in H. congruence.
Qed.

(** C2. The read check holds exactly when the document is public, or the
    caller is known and is the owner, a reader or a writer; a missing ACL
    key counts as [is_public = false] or as the empty list. *)
Theorem can_read_iff (doc : acl) (user_id : option Z) :
  (_can_read doc user_id = true <->
   is_public doc = Some true \/
   exists u, user_id = Some u /\
             (owner_id doc = Some u \/
              (exists readers, allowed_readers doc = Some readers /\
                               In u readers) \/
              (exists writers, allowed_writers doc = Some writers /\
                               In u writers)))
  /\ _can_read doc user_id =
     _can_read {| is_public := Some (Py.get (is_public doc) false)
                ; owner_id := owner_id doc
                ; allowed_readers := Some (Py.get (allowed_readers doc) [])
                ; allowed_writers := Some (Py.get (allowed_writers doc) []) |}
               user_id.
Proof.
  split; [|reflexivity].
  rewrite can_read_true.
  destruct doc as [[[|]|] own [r|] [wr|]]; simpl;
    (split; intros [H|[u [Hu H]]];
     [ try discriminate; auto
     | right; exists u; split; [assumption|];
       destruct H as [H|[H|H]]; try contradiction; eauto 6
     | try discriminate; auto
     | right; exists u; split; [assumption|];
       destruct H as [H|[[l [E H]]|[l [E H]]]];
       try discriminate; try (injection E as <-); auto ]).
Qed.


Lemma can_read_iff_witness : _can_read acl_shared (Some id_writer) = true.
Proof.
  apply (proj1 (can_read_iff acl_shared (Some id_writer))).
  right. exists id_writer. split; [reflexivity|]. right. right.
  exists [id_writer]. split; [reflexivity | left; reflexivity].
Defined.


(** ** Strings *)

Lemma prefix_app (p s : string) :
  String.prefix p s = true <-> exists b, s = (p ++ b)%string.
Proof.
  revert s. induction p as [|c p IH]; intros s.
  - split; [simpl; eauto | intros _; now destruct s].
  - destruct s as [|x s]; simpl.
    + split; [discriminate | intros [b H]; discriminate].
    + destruct (ascii_dec c x) as [->|Hne].
      * rewrite IH. split; intros [b H]; exists b; congruence.
      * split; [discriminate|]. intros [b H]. congruence.
Qed.

Lemma contains_nil (sub : string) :
  Py.contains sub EmptyString = String.prefix sub EmptyString.
Proof. unfold Py.contains. apply orb_false_r. Qed.

Lemma contains_cons (sub : string) (x : ascii) (s : string) :
  Py.contains sub (String x s) =
  String.prefix sub (String x s) || Py.contains sub s.
Proof. reflexivity. Qed.

Lemma contains_spec (sub s : string) :
  Py.contains sub s = true <-> exists a b, s = (a ++ sub ++ b)%string.
Proof.
  induction s as [|x s IH].
  - rewrite contains_nil, prefix_app. split.
    + intros [b H]. exists EmptyString, b. exact H.
    + intros [a [b H]]. destruct a; simpl in H; [eauto | discriminate].
  - rewrite contains_cons, orb_true_iff, IH, prefix_app. split.
    + intros [[b H]|[a [b H]]].
      * exists EmptyString, b. exact H.
      * exists (String x a), b. simpl. now rewrite H.
    + intros [a [b H]]. destruct a as [|y a]; simpl in H.
      * left. eauto.
      * right. injection H as _ H. eauto.
Qed.

Lemma split_nonempty (sep : ascii) (s : string) : Py.split sep s <> [].
Proof.
  destruct s as [|c r]; simpl; [discriminate|].
  destruct (Ascii.eqb c sep); [discriminate|].
  destruct (Py.split sep r); discriminate.
Qed.

Lemma split_no_sep (sep : ascii) (s : string) :
  Py.has_char sep s = false -> Py.split sep s = [s].
Proof.
  induction s as [|c r IH]; simpl; [reflexivity|].
  intros H. apply orb_false_elim in H. destruct H as [Hc Hr].
  rewrite Hc, (IH Hr). reflexivity.
Qed.

Lemma split_has_sep (sep : ascii) (s : string) :
  Py.has_char sep s = true -> exists h x t, Py.split sep s = h :: x :: t.
Proof.
  induction s as [|c r IH]; simpl; [discriminate|].
  destruct (Ascii.eqb c sep) eqn:Hc; simpl.
  - intros _. destruct (Py.split sep r) as [|x t] eqn:E.
    + now apply split_nonempty in E.
    + eauto.
  - intros H. destruct (IH H) as [h [x [t E]]]. rewrite E. eauto.
Qed.

Lemma last_item_split_cons (sep c : ascii) (r : string) :
  Py.last_item (Py.split sep (String c r)) =
  if Ascii.eqb c sep || Py.has_char sep r
  then Py.last_item (Py.split sep r)
  else String c r.
Proof.
  unfold Py.last_item. simpl. destruct (Ascii.eqb c sep) eqn:Hc; simpl.
  - destruct (Py.split sep r) eqn:E; [now apply split_nonempty in E|reflexivity].
  - destruct (Py.has_char sep r) eqn:Hr.
    + destruct (split_has_sep _ _ Hr) as [h [x [t E]]]. rewrite E. reflexivity.
    + rewrite (split_no_sep _ _ Hr). reflexivity.
Qed.

Lemma has_char_app (c : ascii) (a b : string) :
  Py.has_char c (a ++ b)%string = Py.has_char c a || Py.has_char c b.
Proof.
  induction a as [|x a IH]; simpl; [reflexivity|].
  now rewrite IH, orb_assoc.
Qed.

Lemma last_segment_unique (pre seg : string) :
  Py.has_char "/" seg = false ->
  (pre = EmptyString \/ exists p, pre = (p ++ "/")%string) ->
  Py.last_item (Py.split "/" (pre ++ seg)%string) = seg.
Proof.
  intros Hseg. induction pre as [|c pre IH]; intros Hpre.
  - simpl. rewrite (split_no_sep _ _ Hseg). reflexivity.
  - destruct Hpre as [Hpre|[p Hp]]; [discriminate|].
    change (String c pre ++ seg)%string with (String c (pre ++ seg)%string).
    rewrite last_item_split_cons.
    destruct p as [|y p]; simpl in Hp; injection Hp as -> ->.
    + simpl. rewrite (split_no_sep _ _ Hseg). reflexivity.
    + assert (H : Py.has_char "/" ((p ++ "/") ++ seg)%string = true).
      { rewrite !has_char_app. simpl. now rewrite orb_true_r. }
      rewrite H, orb_true_r. apply IH. eauto.
Qed.

Lemma last_segment_exists (m : string) :
  exists pre,
    m = (pre ++ Py.last_item (Py.split "/" m))%string /\
    (pre = EmptyString \/ exists p, pre = (p ++ "/")%string) /\
    Py.has_char "/" (Py.last_item (Py.split "/" m)) = false.
Proof.
  induction m as [|c r IH].
  - exists EmptyString. simpl. auto.
  - rewrite last_item_split_cons.
    destruct (Ascii.eqb c "/" || Py.has_char "/" r) eqn:E.
    + destruct IH as [pre [Hm [Hpre Hno]]].
      destruct Hpre as [->|[p ->]].
      * (* no slash in r: so c is the slash *)
        simpl in Hm. rewrite <- Hm in *. rewrite Hno, orb_false_r in E.
        apply Ascii.eqb_eq in E. subst c.
        exists "/"%string. split; [reflexivity|]. split; [|assumption].
        right. exists EmptyString. reflexivity.
      * exists (String c (p ++ "/"))%string. split; [|split].
        -- simpl. now rewrite <- Hm.
        -- right. exists (String c p). reflexivity.
        -- assumption.
    + exists EmptyString. split; [reflexivity|]. split; [now left|].
      apply orb_false_elim in E. simpl. destruct E as [-> ->]. reflexivity.
Qed.

(** ** The interceptor *)

Lemma is_read_op_spec (m : string) :
  is_read_op m = true <->
  exists seg, spec_last_path_segment m seg /\ spec_substring "Get" seg.
Proof.
  unfold is_read_op, spec_last_path_segment, spec_substring.
  rewrite contains_spec. split.
  - intros Hsub. destruct (last_segment_exists m) as [pre [Hm [Hpre Hno]]].
    exists (Py.last_item (Py.split "/" m)). eauto.
  - intros [seg [[Hno [pre [Hm Hpre]]] Hsub]]. subst m.
    now rewrite (last_segment_unique pre seg Hno Hpre).
Qed.

Lemma truthy_false (s : string) : Py.truthy s = false <-> s = EmptyString.
Proof.
  unfold Py.truthy. rewrite negb_false_iff. apply String.eqb_eq.
Qed.

Lemma truthy_true (s : string) : Py.truthy s = true <-> s <> EmptyString.
Proof.
  unfold Py.truthy. rewrite negb_true_iff. apply String.eqb_neq.
Qed.

(** What the two readers of the [authorization] entry make of it. *)

Lemma bearer_no_prefix (t : string) :
  Py.startswith t "Bearer " = false -> bearer t = t.
Proof. unfold bearer. now intros ->. Qed.

Lemma bearer_prefix (rest : string) :
  bearer ("Bearer " ++ rest) = List.hd EmptyString (Py.split " " rest).
Proof.
  unfold bearer, Py.startswith.
  assert (H : String.prefix "Bearer " ("Bearer " ++ rest)%string = true)
    by (apply prefix_app; eauto).
  rewrite H. unfold Py.item1. simpl.
  destruct (Py.split " " rest); reflexivity.
Qed.

Lemma bearer_prefix_no_space (rest : string) :
  Py.has_char " " rest = false -> bearer ("Bearer " ++ rest) = rest.
Proof.
  intros H. rewrite bearer_prefix, (split_no_sep _ _ H). reflexivity.
Qed.

(** The interceptor's token is the credential run through [bearer]. *)
Lemma interceptor_token_eq (md : Metadata) :
  interceptor_token md = option_map bearer (Py.dict_get "authorization" md).
Proof.
  unfold interceptor_token, bearer.
  destruct (Py.dict_get "authorization" md) as [raw|]; [|reflexivity].
  destruct (Py.truthy raw) eqn:Hraw; cbn [andb option_map].
  - now destruct (Py.startswith raw "Bearer ").
  - apply truthy_false in Hraw. subst raw. reflexivity.
Qed.

(** What the interceptor does with a call, by the token it reads. *)
Lemma intercept_service_run (self : AuthInterceptor)
    (Req Resp : Type) (k : HandlerCallDetails -> RpcMethodHandler Req Resp)
    (d : HandlerCallDetails) (w : world) :
  let token := match Py.dict_get "authorization" (invocation_metadata d) with
               | Some t => bearer t
               | None => EmptyString
               end in
  intercept_service self k d w =
  if Py.truthy token then
    match stub self token with
    | Reply _ => (Ret (k d), record_auth_call token w)
    | RpcError _ =>
        (Ret (if is_read_op (method d) then k d
              else _abort UNAUTHENTICATED "Auth required"),
         record_auth_call token w)
    end
  else (Ret (if is_read_op (method d) then k d
             else _abort UNAUTHENTICATED "Auth required"), w).
Proof.
  intros token. unfold intercept_service.
  rewrite interceptor_token_eq. fold token.
  destruct (Py.dict_get "authorization" (invocation_metadata d)) as [raw|];
    cbn [option_map].
  - fold token. destruct (Py.truthy token) eqn:Htr.
    + unfold bind, GetCurrentUser, ret.
      destruct (stub self token); [reflexivity|].
      now destruct (is_read_op (method d)).
    + unfold bind, ret. now destruct (is_read_op (method d)).
  - unfold token. cbn [Py.truthy String.eqb negb]. unfold bind, ret.
    now destruct (is_read_op (method d)).
Qed.

(** C4 (amended).  A call is read-intent exactly when the last path segment
    of its method name contains "Get".  The token the interceptor presents
    to the identity collaborator is read off the [authorization] entry of
    the call's metadata: the credential itself or, when the credential
    starts with "Bearer ", the text between that prefix and the next space
    (all of the rest when it has no space); no entry counts as the empty
    token.  A caller whose token is not empty and is resolved by the
    collaborator reaches the handler.  A caller whose token is empty (the
    collaborator is then not asked) or is rejected by the collaborator
    reaches the handler exactly on a read-intent call; on a write-intent
    call the interceptor answers with a handler that aborts with
    UNAUTHENTICATED, whatever the real handler is.  The store is untouched
    in every case. *)
Theorem intercept_service_spec (self : AuthInterceptor)
    (d : HandlerCallDetails) (w : world) :
  let token := match Py.dict_get "authorization" (invocation_metadata d) with
               | Some t => bearer t
               | None => EmptyString
               end in
  let read := is_read_op (method d) in
  (read = true <->
   exists seg, spec_last_path_segment (method d) seg /\
               spec_substring "Get" seg)
  /\ (token <> EmptyString ->
      forall u, stub self token = Reply u ->
      forall Req Resp,
        (forall k : HandlerCallDetails -> RpcMethodHandler Req Resp,
           intercept_service self k d w
           = (Ret (k d), record_auth_call token w))
        /\ (forall (h : RpcMethodHandler Req Resp) (request : Req),
              serve self h d request w
              = h request (invocation_metadata d)
                  (record_auth_call token w)))
  /\ (forall w1,
        (token = EmptyString /\ w1 = w) \/
        (token <> EmptyString /\ (exists e, stub self token = RpcError e) /\
         w1 = record_auth_call token w) ->
        store w1 = store w
        /\ (read = true ->
            forall Req Resp
                   (k : HandlerCallDetails -> RpcMethodHandler Req Resp),
              intercept_service self k d w = (Ret (k d), w1))
        /\ (read = false ->
            forall Req Resp,
              (forall k : HandlerCallDetails -> RpcMethodHandler Req Resp,
                 intercept_service self k d w =
                 (Ret (_abort UNAUTHENTICATED "Auth required"), w1))
              /\ (forall (h : RpcMethodHandler Req Resp) (request : Req),
                    serve self h d request w =
                    (Abort UNAUTHENTICATED "Auth required", w1)))
        /\ (fst (serve self (fun (_ : unit) (_ : Metadata) => ret tt) d tt w)
            = Ret tt <-> read = true))
  /\ (forall t, Py.startswith t "Bearer " = false -> bearer t = t)
  /\ (forall rest,
        bearer ("Bearer " ++ rest) = List.hd EmptyString (Py.split " " rest))
  /\ (forall rest, Py.has_char " " rest = false ->
        bearer ("Bearer " ++ rest) = rest).
Proof.
  intros token read. split; [apply is_read_op_spec|].
  assert (Hrun : forall Req Resp
                   (k : HandlerCallDetails -> RpcMethodHandler Req Resp),
            intercept_service self k d w =
            if Py.truthy token then
              match stub self token with
              | Reply _ => (Ret (k d), record_auth_call token w)
              | RpcError _ =>
                  (Ret (if read then k d
                        else _abort UNAUTHENTICATED "Auth required"),
                   record_auth_call token w)
              end
            else (Ret (if read then k d
                       else _abort UNAUTHENTICATED "Auth required"), w))
    by (intros Req Resp k; apply intercept_service_run).
  clearbody token read.
  split; [|split; [|split; [|split]]].
  - intros Htok u Hs Req Resp. apply truthy_true in Htok.
    assert (Hk : forall k : HandlerCallDetails -> RpcMethodHandler Req Resp,
              intercept_service self k d w
              = (Ret (k d), record_auth_call token w))
      by (intros k; now rewrite Hrun, Htok, Hs).
    split; [exact Hk|].
    intros h request. unfold serve, bind. now rewrite Hk.
  - intros w1 Hcase.
    assert (Hk : forall Req Resp
                   (k : HandlerCallDetails -> RpcMethodHandler Req Resp),
              intercept_service self k d w =
              (Ret (if read then k d
                    else _abort UNAUTHENTICATED "Auth required"), w1)).
    { intros Req Resp k. rewrite Hrun.
      destruct Hcase as [[Htok ->]|[Htok [[e He] ->]]].
      - apply truthy_false in Htok. now rewrite Htok.
      - apply truthy_true in Htok. now rewrite Htok, He. }
    split.
    { destruct Hcase as [[_ ->]|[_ [_ ->]]]; reflexivity. }
    unfold serve.
    split; [|split].
    + intros Hr Req Resp k. now rewrite Hk, Hr.
    + intros Hr Req Resp. split.
      * intros k. now rewrite Hk, Hr.
      * intros h request. unfold bind. now rewrite Hk, Hr.
    + unfold bind. rewrite Hk. destruct read; [now split|].
      split; discriminate.
  - apply bearer_no_prefix.
  - apply bearer_prefix.
  - apply bearer_prefix_no_space.
Qed.

(** The owner's session reaches the handler of a write-intent call; a call
    without metadata is rejected. *)
Lemma intercept_service_spec_witness :
  serve interceptor (DeleteDirectory svc)
        (mkDetails "/catalog.CatalogService/DeleteDirectory" meta_owner)
        (mkDeleteDirectoryRequest (str oid_docs)) world_with_file
  = DeleteDirectory svc (mkDeleteDirectoryRequest (str oid_docs)) meta_owner
                    (record_auth_call "sess-owner" world_with_file)
  /\ fst (serve interceptor (DeleteDirectory svc)
                (mkDetails "/catalog.CatalogService/DeleteDirectory"
                           meta_anonymous)
                (mkDeleteDirectoryRequest (str oid_docs)) world_with_file)
     = Abort UNAUTHENTICATED "Auth required".
Proof.
  split.
  - destruct (intercept_service_spec interceptor
                (mkDetails "/catalog.CatalogService/DeleteDirectory"
                           meta_owner)
                world_with_file) as [_ [Hpass _]].
    apply (Hpass ltac:(discriminate) id_owner eq_refl).
  - destruct (intercept_service_spec interceptor
                (mkDetails "/catalog.CatalogService/DeleteDirectory"
                           meta_anonymous)
                world_with_file) as [_ [_ [H _]]].
    destruct (H world_with_file (or_introl (conj eq_refl eq_refl)))
      as [_ [_ [Hwrite _]]].
    destruct (Hwrite eq_refl DeleteDirectoryRequest DeleteResponse) as [_ Hs].
    rewrite Hs. reflexivity.
Defined.

(** C4 as stated fails: the bearer token of the credential "Bearer a b" is
    "a b", which the collaborator resolves to user 7; the interceptor asks
    for "a" instead and rejects the write-intent call. *)
Lemma intercept_service_bearer_counterexample :
  let gate := mkAuthInterceptor (AuthServiceMock [("a b", 7%Z)]) in
  let d := mkDetails "/catalog.CatalogService/DeleteDirectory"
                     [("authorization", ("Bearer " ++ "a b")%string)] in
  stub gate "a b" = Reply 7%Z
  /\ is_read_op (method d) = false
  /\ serve gate (DeleteDirectory svc) d
           (mkDeleteDirectoryRequest (str oid_docs)) world_with_file
     = (Abort UNAUTHENTICATED "Auth required",
        record_auth_call "a" world_with_file).
Proof. repeat split. Qed.

(** ** The identity resolver *)

(** The resolver only records its outbound call. *)
Lemma get_user_identity_world (self : CatalogService) (context : Metadata)
    (w : world) :
  exists r calls,
    _get_user_identity self context w = (Ret r, snd (_get_user_identity self context w)) /\
    snd (_get_user_identity self context w) =
    mkWorld (dirs_col w) (files_col w) (oid_counter w)
            (auth_calls w ++ calls) (file_calls w) (logger w).
Proof.
  unfold _get_user_identity.
  destruct (Py.dict_get "authorization" context) as [t|].
  - destruct (Py.truthy t); simpl.
    + unfold bind, GetCurrentUser.
      destruct (auth_stub self (bearer t)); simpl; eexists; exists [bearer t]; split; reflexivity.
    + eexists; exists []. rewrite app_nil_r. destruct w; split; reflexivity.
  - eexists; exists []. rewrite app_nil_r. destruct w; split; reflexivity.
Qed.

(** C8 (amended). With no [authorization] entry, or an empty one, the
    resolver answers [(None, False)] and makes no outbound call.  Otherwise
    it calls the identity collaborator exactly once, with the credential
    itself or, when the credential starts with "Bearer ", with the text
    between that prefix and the next space (all of the rest when it has no
    space), and answers the resolved identity with [True] when the call
    succeeds and [(None, False)] when it fails.  It always returns. *)
Theorem get_user_identity_spec (self : CatalogService) (context : Metadata)
    (w : world) :
  let token := Py.dict_get "authorization" context in
  (Py.truthy_opt token = false ->
   _get_user_identity self context w = (Ret (None, false), w))
  /\ (forall t, token = Some t -> Py.truthy t = true ->
      (forall ID, auth_stub self (bearer t) = Reply ID ->
         _get_user_identity self context w =
         (Ret (Some ID, true), record_auth_call (bearer t) w))
      /\ (forall e, auth_stub self (bearer t) = RpcError e ->
            _get_user_identity self context w =
            (Ret (None, false), record_auth_call (bearer t) w)))
  /\ (forall t, Py.startswith t "Bearer " = false -> bearer t = t)
  /\ (forall rest,
        bearer ("Bearer " ++ rest) = List.hd EmptyString (Py.split " " rest))
  /\ (forall rest, Py.has_char " " rest = false ->
        bearer ("Bearer " ++ rest) = rest)
  /\ exists r w', _get_user_identity self context w = (Ret r, w').
Proof.
  intros token. unfold _get_user_identity. fold token.
  split; [|split; [|split; [|split; [|split]]]].
  - destruct token as [t|]; simpl; [|reflexivity]. now intros ->.
  - intros t -> Htr. rewrite Htr. simpl. unfold bind, GetCurrentUser.
    split; intros x ->; reflexivity.
  - apply bearer_no_prefix.
  - apply bearer_prefix.
  - apply bearer_prefix_no_space.
  - destruct (get_user_identity_world self context w) as [r [_ [H _]]].
    unfold _get_user_identity in H. fold token in H. eauto.
Qed.

(** C8 as stated fails: the credential "Bearer a b" without its prefix is
    "a b", which the collaborator resolves to user 7; the resolver asks for
    "a" instead and answers [(None, False)]. *)
Lemma get_user_identity_bearer_counterexample :
  let self := mkCatalogService (mkFileServiceClient FileServiceMock)
                               (AuthServiceMock [("a b", 7%Z)]) in
  let context := [("authorization", ("Bearer " ++ "a b")%string)] in
  auth_stub self "a b" = Reply 7%Z
  /\ _get_user_identity self context world_with_file
     = (Ret (None, false), record_auth_call "a" world_with_file).
Proof. split; reflexivity. Qed.

Lemma get_user_identity_spec_witness :
  _get_user_identity svc meta_owner world_with_file
  = (Ret (Some id_owner, true), record_auth_call "sess-owner" world_with_file).
Proof.
  destruct (get_user_identity_spec svc meta_owner world_with_file)
    as [_ [H _]].
  destruct (H "Bearer sess-owner"%string eq_refl eq_refl) as [Hok _].
  exact (Hok id_owner eq_refl).
Defined.

(** ** Collections *)

Lemma oid_eqb_eq (a b : oid) : oid_eqb a b = true <-> a = b.
Proof.
  revert b. induction a as [|x a IH]; destruct b as [|y b]; simpl;
    try (split; congruence).
  rewrite andb_true_iff, IH. split.
  - intros [H ->]. apply Byte.byte_dec_bl in H. now subst.
  - intros H. injection H as -> ->. split; [now apply Byte.byte_dec_lb | reflexivity].
Qed.

Lemma eq_opt_str_true (a b : option string) :
  Py.eq_opt_str a b = true <-> a = b.
Proof.
  destruct a as [x|], b as [y|]; simpl; try (split; congruence).
  rewrite String.eqb_eq. split; congruence.
Qed.

Section Collection.

Variable A : Type.
Variable q : A -> bool.

Lemma count_documents_pos (col : list A) :
  (0 < Mongo.count_documents q col)%nat <->
  exists d, In d col /\ q d = true.
Proof.
  unfold Mongo.count_documents. split.
  - destruct (filter q col) as [|d l] eqn:E; simpl; [lia|].
    intros _. exists d. apply filter_In. rewrite E. now left.
  - intros [d Hd]. apply filter_In in Hd.
    destruct (filter q col); simpl; [contradiction | lia].
Qed.

Lemma find_one_update_one (set : A -> A) (col : list A) :
  (forall d, q (set d) = q d) ->
  Mongo.find_one q (Mongo.update_one q set col) =
  option_map set (Mongo.find_one q col).
Proof.
  intros Hq. unfold Mongo.find_one.
  induction col as [|d col IH]; simpl; [reflexivity|].
  destruct (q d) eqn:E; simpl.
  - now rewrite Hq, E.
  - now rewrite E.
Qed.

Lemma delete_many_In (col : list A) (d : A) :
  In d (Mongo.delete_many q col) <-> In d col /\ q d = false.
Proof.
  unfold Mongo.delete_many. rewrite filter_In, negb_true_iff. reflexivity.
Qed.

Lemma delete_one_incl (col : list A) (d : A) :
  In d (Mongo.delete_one q col) -> In d col.
Proof.
  induction col as [|x col IH]; simpl; [easy|].
  destruct (q x); simpl; intuition.
Qed.

Lemma delete_one_keeps (col : list A) (d : A) :
  In d col -> q d = false -> In d (Mongo.delete_one q col).
Proof.
  induction col as [|x col IH]; simpl; [easy|].
  intros [->|Hin] Hq.
  - rewrite Hq. now left.
  - destruct (q x); [assumption | right; auto].
Qed.

Lemma delete_one_unique (col : list A) :
  (Mongo.count_documents q col <= 1)%nat ->
  Mongo.find_one q (Mongo.delete_one q col) = None.
Proof.
  unfold Mongo.count_documents, Mongo.find_one.
  induction col as [|x col IH]; simpl; [reflexivity|].
  destruct (q x) eqn:E; simpl.
  - intros H. destruct (find q col) as [d|] eqn:F; [|reflexivity].
    apply find_some in F. destruct F as [Hin Hq].
    assert (In d (filter q col)) by (apply filter_In; auto).
    destruct (filter q col); simpl in *; [contradiction | lia].
  - intros H. rewrite E. auto.
Qed.

End Collection.

(** Distinct [_id]s (Mongo's unique index) leave at most one match. *)
Lemma NoDup_ids_count (A : Type) (key : A -> oid) (col : list A) (o : oid) :
  NoDup (map key col) ->
  (Mongo.count_documents (fun d => oid_eqb (key d) o) col <= 1)%nat.
Proof.
  unfold Mongo.count_documents.
  induction col as [|d col IH]; simpl; [lia|].
  intros H. inversion H as [|? ? Hnot Hnd]; subst.
  destruct (oid_eqb (key d) o) eqn:E; [|auto].
  apply oid_eqb_eq in E. simpl.
  assert (filter (fun d => oid_eqb (key d) o) col = []) as ->; [|simpl; lia].
  destruct (filter (fun d => oid_eqb (key d) o) col) as [|x l] eqn:F;
    [reflexivity|].
  exfalso. apply Hnot.
  assert (Hx : In x (filter (fun d => oid_eqb (key d) o) col))
    by (rewrite F; now left).
  apply filter_In in Hx. destruct Hx as [Hin Hq].
  apply oid_eqb_eq in Hq. rewrite E, <- Hq. now apply in_map.
Qed.

(** ** Running a handler *)

(** What identity resolution leaves of the world. *)
Lemma get_user_identity_frame (self : CatalogService) (context : Metadata)
    (w w1 : world) (r : outcome (option Z * bool)) :
  _get_user_identity self context w = (r, w1) ->
  dirs_col w1 = dirs_col w /\ files_col w1 = files_col w /\
  oid_counter w1 = oid_counter w /\ file_calls w1 = file_calls w /\
  logger w1 = logger w.
Proof.
  intros H.
  destruct (get_user_identity_world self context w) as [r' [calls [_ Hw]]].
  rewrite H in Hw. simpl in Hw. subst w1. repeat split.
Qed.

(** An authenticated identity is a resolved one, and conversely. *)
Lemma get_user_identity_auth (self : CatalogService) (context : Metadata)
    (w w1 : world) (user_id : option Z) (is_auth : bool) :
  _get_user_identity self context w = (Ret (user_id, is_auth), w1) ->
  (is_auth = true -> exists u, user_id = Some u) /\
  (is_auth = false -> user_id = None).
Proof.
  unfold _get_user_identity.
  destruct (Py.dict_get "authorization" context) as [t|].
  - destruct (Py.truthy t); simpl.
    + unfold bind, GetCurrentUser.
      destruct (auth_stub self (bearer t)); simpl; intros H;
        injection H as <- <- _; split; try discriminate; eauto.
    + intros H; injection H as <- <- _. split; [discriminate | reflexivity].
  - intros H; injection H as <- <- _. split; [discriminate | reflexivity].
Qed.

Ltac run_identity H :=
  unfold bind at 1; rewrite H; cbv beta iota.

Ltac run_steps :=
  unfold bind, when, ret, gets, modify, abort, raise, log;
  cbn [negb]; cbv beta iota.

Lemma DeleteDirectory_run (self : CatalogService)
    (request : DeleteDirectoryRequest) (context : Metadata)
    (w w1 : world) (u : Z) (o : oid) (doc : directory) :
  _get_user_identity self context w = (Ret (Some u, true), w1) ->
  ObjectId (dd_id request) = Some o ->
  Mongo.find_one (q_dir_id o) (dirs_col w) = Some doc ->
  DeleteDirectory self request context w =
  if negb (Py.eq_opt_int (owner_id doc) (Some u))
  then (Abort PERMISSION_DENIED "Only owner can delete", w1)
  else if (0 <? Mongo.count_documents (q_parent_id (Some (dd_id request)))
                                      (dirs_col w))%nat
  then (Ret {| success := false; message := "Directory not empty" |}, w1)
  else (Ret {| success := true; message := "Deleted" |},
        set_dirs (Mongo.delete_one (q_dir_id o))
          (set_files (Mongo.delete_many
             (q_parent_directory_id (Some (dd_id request)))) w1)).
Proof.
  intros Hid Ho Hfind.
  destruct (get_user_identity_frame _ _ _ _ _ Hid) as (Hd & _).
  unfold DeleteDirectory. run_identity Hid.
  unfold ObjectId_. rewrite Ho. run_steps.
  rewrite Hd, Hfind. cbv beta iota.
  destruct (negb (Py.eq_opt_int (owner_id doc) (Some u))); [reflexivity|].
  rewrite Hd. destruct (0 <? _)%nat; reflexivity.
Qed.

Lemma DeleteFile_run (self : CatalogService)
    (request : DeleteFileRequest) (context : Metadata)
    (w w1 : world) (u : Z) (o : oid) (doc : file) :
  _get_user_identity self context w = (Ret (Some u, true), w1) ->
  ObjectId (df_id request) = Some o ->
  Mongo.find_one (q_file_id o) (files_col w) = Some doc ->
  DeleteFile self request context w =
  if negb (Py.eq_opt_int (owner_id doc) (Some u))
  then (Abort PERMISSION_DENIED "Only owner can delete file", w1)
  else
    let w2 := set_files (Mongo.delete_one (q_file_id o)) w1 in
    let w3 := record_file_call (external_file_id doc) w2 in
    (Ret {| success := true; message := "Deleted" |},
     match fs_stub (file_service self) (external_file_id doc) with
     | Reply _ => w3
     | RpcError e => record_log (LogError ("File Service error: " ++ e)) w3
     end).
Proof.
  intros Hid Ho Hfind.
  destruct (get_user_identity_frame _ _ _ _ _ Hid) as (_ & Hf & _).
  unfold DeleteFile. run_identity Hid.
  unfold ObjectId_. rewrite Ho. run_steps.
  rewrite Hf, Hfind. cbv beta iota.
  destruct (negb (Py.eq_opt_int (owner_id doc) (Some u))); [reflexivity|].
  unfold delete_files, delete_files_loop, FileStub_DeleteFile. run_steps.
  destruct (fs_stub (file_service self) (external_file_id doc)); reflexivity.
Qed.

Lemma dir_set_empty (u : dir_update_fields) (d : directory) :
  dir_update_nonempty u = false -> dir_set u d = d.
Proof.
  destruct u as [[n|] [p|] [b|] [r|] [wr|]]; try discriminate.
  intros _. destruct d as [i n p [a b c e]]. reflexivity.
Qed.

Lemma file_set_empty (u : file_update_fields) (f : file) :
  file_update_nonempty u = false -> file_set u f = f.
Proof.
  destruct u as [[n|] [b|] [r|] [wr|]]; try discriminate.
  intros _. destruct f as [i n p x [a b c e]]. reflexivity.
Qed.

Lemma UpdateDirectory_run (self : CatalogService)
    (request : UpdateDirectoryRequest) (context : Metadata)
    (w w1 : world) (u : Z) (o : oid) (doc : directory) :
  _get_user_identity self context w = (Ret (Some u, true), w1) ->
  ObjectId (ud_id request) = Some o ->
  Mongo.find_one (q_dir_id o) (dirs_col w) = Some doc ->
  let update_fields := dir_update_fields_of request doc in
  let w2 := if dir_update_nonempty update_fields
            then set_dirs (Mongo.update_one (q_dir_id o)
                                            (dir_set update_fields)) w1
            else w1 in
  UpdateDirectory self request context w =
  (if _can_write doc (Some u)
   then (Ret (directory_response (dir_set update_fields doc)), w2)
   else (Abort PERMISSION_DENIED "No write permission", w1))
  /\ Mongo.find_one (q_dir_id o) (dirs_col w2) =
     Some (dir_set update_fields doc).
Proof.
  intros Hid Ho Hfind update_fields w2.
  destruct (get_user_identity_frame _ _ _ _ _ Hid) as (Hd & _).
  assert (Hstored : Mongo.find_one (q_dir_id o) (dirs_col w2) =
                    Some (dir_set update_fields doc)).
  { unfold w2. destruct (dir_update_nonempty update_fields) eqn:E.
    - simpl. rewrite Hd, find_one_update_one, Hfind; reflexivity.
    - rewrite Hd, Hfind, dir_set_empty; auto. }
  split; [|exact Hstored].
  unfold UpdateDirectory. run_identity Hid.
  unfold ObjectId_. rewrite Ho. run_steps.
  rewrite Hd, Hfind. cbv beta iota.
  destruct (_can_write doc (Some u)); cbn [negb]; cbv beta iota; [|reflexivity].
  fold update_fields. fold w2 in Hstored |- *.
  destruct (dir_update_nonempty update_fields); cbv beta iota;
    fold w2; rewrite Hstored; reflexivity.
Qed.

Lemma UpdateFile_run (self : CatalogService)
    (request : UpdateFileRequest) (context : Metadata)
    (w w1 : world) (u : Z) (o : oid) (doc : file) :
  _get_user_identity self context w = (Ret (Some u, true), w1) ->
  ObjectId (uf_id request) = Some o ->
  Mongo.find_one (q_file_id o) (files_col w) = Some doc ->
  let update_fields := file_update_fields_of request doc in
  let w2 := if file_update_nonempty update_fields
            then set_files (Mongo.update_one (q_file_id o)
                                             (file_set update_fields)) w1
            else w1 in
  UpdateFile self request context w =
  (if _can_write doc (Some u)
   then (Ret (file_response (file_set update_fields doc)), w2)
   else (Abort PERMISSION_DENIED "No write permission", w1))
  /\ Mongo.find_one (q_file_id o) (files_col w2) =
     Some (file_set update_fields doc).
Proof.
  intros Hid Ho Hfind update_fields w2.
  destruct (get_user_identity_frame _ _ _ _ _ Hid) as (_ & Hf & _).
  assert (Hstored : Mongo.find_one (q_file_id o) (files_col w2) =
                    Some (file_set update_fields doc)).
  { unfold w2. destruct (file_update_nonempty update_fields) eqn:E.
    - simpl. rewrite Hf, find_one_update_one, Hfind; reflexivity.
    - rewrite Hf, Hfind, file_set_empty; auto. }
  split; [|exact Hstored].
  unfold UpdateFile. run_identity Hid.
  unfold ObjectId_. rewrite Ho. run_steps.
  rewrite Hf, Hfind. cbv beta iota.
  destruct (_can_write doc (Some u)); cbn [negb]; cbv beta iota; [|reflexivity].
  fold update_fields. fold w2 in Hstored |- *.
  destruct (file_update_nonempty update_fields); cbv beta iota;
    fold w2; rewrite Hstored; reflexivity.
Qed.

(** ** Directory deletion *)

Lemma has_child_dir_count (w : world) (id : string) :
  (exists child, In child (dirs_col w) /\ parent_id child = Some id) <->
  (0 <? Mongo.count_documents (q_parent_id (Some id)) (dirs_col w))%nat = true.
Proof.
  rewrite Nat.ltb_lt, count_documents_pos. unfold q_parent_id.
  split; intros [c [Hin H]]; exists c; (split; [assumption|]);
    now apply eq_opt_str_true.
Qed.

(** C1 (amended).  For the owner of an existing directory D, a
    DeleteDirectory that names D by its id as the service reports it (the
    lower-case hexadecimal string [str (d_id D)]) answers [success=false]
    with the message "Directory not empty" and leaves the store unchanged
    whenever some directory has D's id as its [parent_id]; a file that has
    D's id as its [parent_directory_id] does not block the deletion.  When
    no directory has D's id as its [parent_id], every file that has it as
    its [parent_directory_id] is deleted and every other file stays, D is
    removed (and, ids being unique, can no longer be found), every other
    directory stays, and the answer is [success=true]. *)
Theorem DeleteDirectory_spec (self : CatalogService)
    (request : DeleteDirectoryRequest) (context : Metadata)
    (w w1 : world) (u : Z) (o : oid) (D : directory) :
  _get_user_identity self context w = (Ret (Some u, true), w1) ->
  dd_id request = str (d_id D) ->
  ObjectId (dd_id request) = Some o ->
  Mongo.find_one (q_dir_id o) (dirs_col w) = Some D ->
  owner_id D = Some u ->
  ((exists child, In child (dirs_col w) /\
                  parent_id child = Some (str (d_id D))) ->
   DeleteDirectory self request context w =
   (Ret {| success := false; message := "Directory not empty" |}, w1)
   /\ store w1 = store w)
  /\ (~ (exists child, In child (dirs_col w) /\
                       parent_id child = Some (str (d_id D))) ->
      exists w',
        DeleteDirectory self request context w =
        (Ret {| success := true; message := "Deleted" |}, w')
        /\ (forall f, In f (files_col w') <->
                      In f (files_col w) /\
                      parent_directory_id f <> Some (str (d_id D)))
        /\ dirs_col w' = Mongo.delete_one (q_dir_id (d_id D)) (dirs_col w)
        /\ (NoDup (map d_id (dirs_col w)) ->
            Mongo.find_one (q_dir_id (d_id D)) (dirs_col w') = None)
        /\ (forall d, In d (dirs_col w) -> d_id d <> d_id D ->
                      In d (dirs_col w'))).
Proof.
  intros Hid Hcanon Ho Hfind Hown.
  assert (HoD : d_id D = o).
  { unfold Mongo.find_one in Hfind. apply find_some in Hfind.
    destruct Hfind as [_ Hq]. now apply oid_eqb_eq in Hq. }
  rewrite HoD in *. clear HoD.
  destruct (get_user_identity_frame _ _ _ _ _ Hid) as (Hd & Hf & _).
  rewrite (DeleteDirectory_run _ _ _ _ _ _ _ _ Hid Ho Hfind), Hown.
  unfold Py.eq_opt_int. rewrite Z.eqb_refl. cbn [negb].
  rewrite Hcanon.
  split.
  - intros Hchild. apply has_child_dir_count in Hchild. rewrite Hchild.
    split; [reflexivity|]. unfold store. now rewrite Hd, Hf.
  - intros Hnone.
    destruct (0 <? _)%nat eqn:Hz.
    { exfalso. apply Hnone. now apply has_child_dir_count. }
    eexists. split; [reflexivity|]. simpl. rewrite Hd, Hf.
    split; [|split; [reflexivity|split]].
    + intros f. rewrite delete_many_In. unfold q_parent_directory_id.
      split; intros [Hin Hq]; (split; [assumption|]).
      * intros Heq. apply eq_opt_str_true in Heq. congruence.
      * destruct (Py.eq_opt_str _ _) eqn:E; [|reflexivity].
        apply eq_opt_str_true in E. contradiction.
    + intros Hnd. apply delete_one_unique.
      apply (NoDup_ids_count _ d_id _ o Hnd).
    + intros d Hin Hne. apply delete_one_keeps; [assumption|].
      unfold q_dir_id. destruct (oid_eqb (d_id d) o) eqn:E; [|reflexivity].
      apply oid_eqb_eq in E. contradiction.
Qed.

Lemma DeleteDirectory_spec_witness :
  DeleteDirectory svc (mkDeleteDirectoryRequest (str oid_docs)) meta_owner
                  world_with_subdir
  = (Ret {| success := false; message := "Directory not empty" |},
     record_auth_call "sess-owner" world_with_subdir).
Proof.
  destruct (DeleteDirectory_spec svc
              (mkDeleteDirectoryRequest (str oid_docs)) meta_owner
              world_with_subdir
              (record_auth_call "sess-owner" world_with_subdir)
              id_owner oid_docs dir_docs
              eq_refl eq_refl eq_refl eq_refl eq_refl) as [H _].
  apply H. exists dir_sub. split; [right; left; reflexivity | reflexivity].
Defined.

(** C1 as stated fails: [Docs] holds the file [f1] and no sub-directory;
    its owner's DeleteDirectory answers [success=true], deletes [f1] and
    removes [Docs] (test 09 of the test suite expects exactly this). *)
Lemma DeleteDirectory_file_child_counterexample :
  let request := mkDeleteDirectoryRequest (str oid_docs) in
  Mongo.find_one (q_dir_id oid_docs) (dirs_col world_with_file) = Some dir_docs
  /\ owner_id dir_docs = Some id_owner
  /\ In file_f1 (files_col world_with_file)
  /\ parent_directory_id file_f1 = Some (dd_id request)
  /\ fst (DeleteDirectory svc request meta_owner world_with_file)
     = Ret {| success := true; message := "Deleted" |}
  /\ store (snd (DeleteDirectory svc request meta_owner world_with_file))
     = ([], [])
  /\ store world_with_file = ([dir_docs], [file_f1]).
Proof. repeat split; try reflexivity. now left. Qed.

(** The children are looked up under the id string of the request, the
    directory under the id that string denotes.  Upper-case digits denote
    the same id, so the owner's DeleteDirectory of [Archive] by its id in
    upper case finds [Archive], sees no child, and removes it: its
    sub-directory and its file, stored under the id in lower case, stay. *)
Example DeleteDirectory_upper_case_id :
  ObjectId id_arch_upper = Some oid_arch
  /\ str oid_arch = id_arch
  /\ DeleteDirectory svc (mkDeleteDirectoryRequest id_arch) meta_owner
                     world_arch
     = (Ret {| success := false; message := "Directory not empty" |},
        record_auth_call "sess-owner" world_arch)
  /\ fst (DeleteDirectory svc (mkDeleteDirectoryRequest id_arch_upper)
                          meta_owner world_arch)
     = Ret {| success := true; message := "Deleted" |}
  /\ store (snd (DeleteDirectory svc (mkDeleteDirectoryRequest id_arch_upper)
                                 meta_owner world_arch))
     = ([dir_arch_sub], [file_arch]).
Proof. repeat split. Qed.

(** ** Deletion is the owner's *)

Lemma owner_differs (doc : acl) (u : Z) :
  negb (Py.eq_opt_int (owner_id doc) (Some u)) = true <-> owner_id doc <> Some u.
Proof.
  rewrite negb_true_iff. split.
  - intros H E. apply eq_opt_int_true in E. congruence.
  - intros H. destruct (Py.eq_opt_int _ _) eqn:E; [|reflexivity].
    apply eq_opt_int_true in E. contradiction.
Qed.

(** C6. For an authenticated caller and an existing object, DeleteDirectory
    and DeleteFile abort with PERMISSION_DENIED exactly when the caller is
    not the stored owner; a caller listed in [allowed_writers] who is not
    the owner is denied the deletion, while UpdateDirectory and UpdateFile
    on the same object answer normally for that caller. *)
Theorem delete_requires_owner (self : CatalogService) (context : Metadata)
    (w w1 : world) (u : Z) :
  _get_user_identity self context w = (Ret (Some u, true), w1) ->
  (forall request o doc,
     ObjectId (dd_id request) = Some o ->
     Mongo.find_one (q_dir_id o) (dirs_col w) = Some doc ->
     ((exists details, fst (DeleteDirectory self request context w)
                       = Abort PERMISSION_DENIED details)
      <-> owner_id doc <> Some u)
     /\ (In u (Py.get (allowed_writers doc) []) -> owner_id doc <> Some u ->
         DeleteDirectory self request context w
         = (Abort PERMISSION_DENIED "Only owner can delete", w1)
         /\ forall update, ud_id update = dd_id request ->
              exists resp w', UpdateDirectory self update context w
                              = (Ret resp, w')))
  /\ (forall request o doc,
        ObjectId (df_id request) = Some o ->
        Mongo.find_one (q_file_id o) (files_col w) = Some doc ->
        ((exists details, fst (DeleteFile self request context w)
                          = Abort PERMISSION_DENIED details)
         <-> owner_id doc <> Some u)
        /\ (In u (Py.get (allowed_writers doc) []) -> owner_id doc <> Some u ->
            DeleteFile self request context w
            = (Abort PERMISSION_DENIED "Only owner can delete file", w1)
            /\ forall update, uf_id update = df_id request ->
                 exists resp w', UpdateFile self update context w
                                 = (Ret resp, w'))).
Proof.
  intros Hid. split; intros request o doc Ho Hfind.
  - rewrite (DeleteDirectory_run _ _ _ _ _ _ _ _ Hid Ho Hfind).
    destruct (negb (Py.eq_opt_int (owner_id doc) (Some u))) eqn:E.
    + apply owner_differs in E. split.
      * split; [intros _; exact E | intros _; eexists; reflexivity].
      * intros Hw _. split; [reflexivity|].
        intros update Hsame. rewrite <- Hsame in Ho.
        destruct (UpdateDirectory_run _ _ _ _ _ _ _ _ Hid Ho Hfind) as [Hrun _].
        rewrite Hrun.
        assert (W : _can_write doc (Some u) = true)
          by (apply can_write_true; eauto).
        rewrite W. eauto.
    + assert (Hown : ~ owner_id doc <> Some u).
      { intros H. apply owner_differs in H. congruence. }
      split; [|intros _ H; contradiction].
      split; [|intros H; contradiction].
      intros [details H]. exfalso.
      destruct (0 <? _)%nat; discriminate.
  - rewrite (DeleteFile_run _ _ _ _ _ _ _ _ Hid Ho Hfind).
    destruct (negb (Py.eq_opt_int (owner_id doc) (Some u))) eqn:E.
    + apply owner_differs in E. split.
      * split; [intros _; exact E | intros _; eexists; reflexivity].
      * intros Hw _. split; [reflexivity|].
        intros update Hsame. rewrite <- Hsame in Ho.
        destruct (UpdateFile_run _ _ _ _ _ _ _ _ Hid Ho Hfind) as [Hrun _].
        rewrite Hrun.
        assert (W : _can_write doc (Some u) = true)
          by (apply can_write_true; eauto).
        rewrite W. eauto.
    + assert (Hown : ~ owner_id doc <> Some u).
      { intros H. apply owner_differs in H. congruence. }
      split; [|intros _ H; contradiction].
      split; [|intros H; contradiction].
      intros [details H]. discriminate.
Qed.

Lemma delete_requires_owner_witness :
  DeleteDirectory svc (mkDeleteDirectoryRequest (str oid_docs)) meta_writer
                  world_with_file
  = (Abort PERMISSION_DENIED "Only owner can delete",
     record_auth_call "sess-writer" world_with_file)
  /\ exists resp w',
       UpdateDirectory svc
         (mkUpdateDirectoryRequest (str oid_docs) "Wiki" "no_change" false [] [])
         meta_writer world_with_file = (Ret resp, w').
Proof.
  destruct (delete_requires_owner svc meta_writer world_with_file
              (record_auth_call "sess-writer" world_with_file)
              id_writer eq_refl) as [Hdir _].
  destruct (Hdir (mkDeleteDirectoryRequest (str oid_docs)) oid_docs dir_docs
                 eq_refl eq_refl) as [_ H].
  destruct H as [Hdenied Hupdate].
  - left. reflexivity.
  - unfold id_owner, id_writer. simpl. discriminate.
  - split; [exact Hdenied|]. apply Hupdate. reflexivity.
Defined.

(** ** File deletion and the blob collaborator *)

(** C9. For the owner of an existing file, DeleteFile removes the catalog
    document, then makes exactly one call to the blob collaborator, with
    the file's [external_file_id]; when that call fails the failure is
    logged and nothing else changes: the document stays deleted and the
    answer is [success=true] either way. *)
Theorem DeleteFile_best_effort (self : CatalogService)
    (request : DeleteFileRequest) (context : Metadata)
    (w w1 : world) (u : Z) (o : oid) (doc : file) :
  _get_user_identity self context w = (Ret (Some u, true), w1) ->
  ObjectId (df_id request) = Some o ->
  Mongo.find_one (q_file_id o) (files_col w) = Some doc ->
  owner_id doc = Some u ->
  exists w',
    DeleteFile self request context w
    = (Ret {| success := true; message := "Deleted" |}, w')
    /\ delete_files (file_service self) [external_file_id doc]
                    (set_files (Mongo.delete_one (q_file_id o)) w1)
       = (Ret tt, w')
    /\ files_col w' = Mongo.delete_one (q_file_id o) (files_col w)
    /\ dirs_col w' = dirs_col w
    /\ file_calls w' = file_calls w ++ [external_file_id doc]
    /\ (NoDup (map f_id (files_col w)) ->
        Mongo.find_one (q_file_id o) (files_col w') = None)
    /\ match fs_stub (file_service self) (external_file_id doc) with
       | Reply _ => logger w' = logger w
       | RpcError e =>
           logger w' = logger w ++ [LogError ("File Service error: " ++ e)]
       end.
Proof.
  intros Hid Ho Hfind Hown.
  destruct (get_user_identity_frame _ _ _ _ _ Hid) as (Hd & Hf & _ & Hc & Hl).
  rewrite (DeleteFile_run _ _ _ _ _ _ _ _ Hid Ho Hfind), Hown.
  unfold Py.eq_opt_int. rewrite Z.eqb_refl. cbn [negb]. cbv zeta.
  eexists. split; [reflexivity|].
  assert (Hfiles : NoDup (map f_id (files_col w)) ->
            Mongo.find_one (q_file_id o)
              (Mongo.delete_one (q_file_id o) (files_col w)) = None).
  { intros Hnd. apply delete_one_unique.
    apply (NoDup_ids_count _ f_id _ o Hnd). }
  unfold delete_files, delete_files_loop, FileStub_DeleteFile.
  unfold bind, ret, log, modify.
  destruct (fs_stub (file_service self) (external_file_id doc)) as [[]|e];
    simpl; rewrite ?Hd, ?Hf, ?Hc, ?Hl;
    repeat (split; [reflexivity|]); (split; [exact Hfiles | reflexivity]).
Qed.

Lemma DeleteFile_best_effort_witness :
  DeleteFile svc_blob_down (mkDeleteFileRequest (str oid_f1)) meta_owner
             world_with_file
  = (Ret {| success := true; message := "Deleted" |},
     mkWorld [dir_docs] [] 4 ["sess-owner"] ["e1"]
             [LogError "File Service error: unavailable"]).
Proof.
  destruct (DeleteFile_best_effort svc_blob_down
              (mkDeleteFileRequest (str oid_f1)) meta_owner
              world_with_file
              (record_auth_call "sess-owner" world_with_file)
              id_owner oid_f1 file_f1
              eq_refl eq_refl eq_refl eq_refl) as [w' [Hrun [Hcall _]]].
  rewrite Hrun. f_equal. symmetry.
  injection Hcall as Hw. exact Hw.
Defined.

(** ** Partial update *)

Lemma eq_opt_bool_true (a b : option bool) :
  Py.eq_opt_bool a b = true <-> a = b.
Proof.
  destruct a as [[|]|], b as [[|]|]; simpl; split; congruence.
Qed.

Lemma partial_name_ok (req stored : string) :
  spec_partial_name req stored
    (Py.get (if Py.truthy req then Some req else None) stored).
Proof.
  unfold spec_partial_name. destruct (Py.truthy req) eqn:E; simpl.
  - apply truthy_true in E. split; [reflexivity | contradiction].
  - apply truthy_false in E. split; [contradiction | reflexivity].
Qed.


Lemma partial_is_public_ok (req : bool) (stored : option bool) :
  spec_partial_is_public req stored
    match (if negb (Py.eq_opt_bool (Some req) stored)
           then Some req else None) with
    | Some b => Some b
    | None => stored
    end.
Proof.
  unfold spec_partial_is_public.
  destruct (Py.eq_opt_bool (Some req) stored) eqn:E; simpl.
  - apply eq_opt_bool_true in E. split; [congruence | reflexivity].
  - split; [reflexivity|]. intros ->.
    assert (H : Py.eq_opt_bool (Some req) (Some req) = true)
      by now apply eq_opt_bool_true.
    congruence.
Qed.

Lemma partial_list_ok (req : list Z) (stored : option (list Z)) :
  spec_partial_list req stored
    match (match req with [] => None | _ :: _ => Some req end) with
    | Some l => Some l
    | None => stored
    end.
Proof.
  unfold spec_partial_list. destruct req; simpl; split;
    try reflexivity; try discriminate; contradiction.
Qed.





(** ** [is_public] after an update *)

(** A handler that answered went through a resolved identity. *)
Lemma get_user_identity_cases (self : CatalogService) (context : Metadata)
    (w : world) :
  (exists u w1, _get_user_identity self context w = (Ret (Some u, true), w1))
  \/ (exists w1, _get_user_identity self context w = (Ret (None, false), w1)).
Proof.
  destruct (get_user_identity_world self context w) as [[uid auth] [calls [H _]]].
  destruct (get_user_identity_auth _ _ _ _ _ _ H) as [Hyes Hno].
  destruct auth.
  - destruct (Hyes eq_refl) as [u ->]. left. eauto.
  - rewrite (Hno eq_refl) in H. right. eauto.
Qed.

Lemma UpdateDirectory_success (self : CatalogService)
    (request : UpdateDirectoryRequest) (context : Metadata)
    (w w' : world) (resp : DirectoryResponse) :
  UpdateDirectory self request context w = (Ret resp, w') ->
  exists u w1 o doc,
    _get_user_identity self context w = (Ret (Some u, true), w1) /\
    ObjectId (ud_id request) = Some o /\
    Mongo.find_one (q_dir_id o) (dirs_col w) = Some doc /\
    _can_write doc (Some u) = true.
Proof.
  intros H.
  destruct (get_user_identity_cases self context w) as [[u [w1 Hid]]|[w1 Hid]].
  2:{ unfold UpdateDirectory in H. unfold bind at 1 in H. rewrite Hid in H.
      discriminate H. }
  destruct (get_user_identity_frame _ _ _ _ _ Hid) as (Hd & _).
  exists u, w1.
  destruct (ObjectId (ud_id request)) as [o|] eqn:Ho.
  2:{ unfold UpdateDirectory in H. unfold bind at 1 in H. rewrite Hid in H.
      unfold ObjectId_ in H. rewrite Ho in H. discriminate H. }
  exists o.
  destruct (Mongo.find_one (q_dir_id o) (dirs_col w)) as [doc|] eqn:Hfind.
  2:{ unfold UpdateDirectory in H. unfold bind at 1 in H. rewrite Hid in H.
      unfold ObjectId_ in H. rewrite Ho in H.
      unfold bind, when, ret, gets, abort in H. cbn [negb] in H.
      cbv beta iota in H. rewrite Hd, Hfind in H. discriminate H. }
  exists doc. split; [exact Hid|]. split; [reflexivity|].
  split; [reflexivity|].
  destruct (UpdateDirectory_run _ _ _ _ _ _ _ _ Hid Ho Hfind) as [Hrun _].
  rewrite Hrun in H. destruct (_can_write doc (Some u)); [reflexivity|].
  discriminate H.
Qed.

Lemma UpdateFile_success (self : CatalogService)
    (request : UpdateFileRequest) (context : Metadata)
    (w w' : world) (resp : FileResponse) :
  UpdateFile self request context w = (Ret resp, w') ->
  exists u w1 o doc,
    _get_user_identity self context w = (Ret (Some u, true), w1) /\
    ObjectId (uf_id request) = Some o /\
    Mongo.find_one (q_file_id o) (files_col w) = Some doc /\
    _can_write doc (Some u) = true.
Proof.
  intros H.
  destruct (get_user_identity_cases self context w) as [[u [w1 Hid]]|[w1 Hid]].
  2:{ unfold UpdateFile in H. unfold bind at 1 in H. rewrite Hid in H.
      discriminate H. }
  destruct (get_user_identity_frame _ _ _ _ _ Hid) as (_ & Hf & _).
  exists u, w1.
  destruct (ObjectId (uf_id request)) as [o|] eqn:Ho.
  2:{ unfold UpdateFile in H. unfold bind at 1 in H. rewrite Hid in H.
      unfold ObjectId_ in H. rewrite Ho in H. discriminate H. }
  exists o.
  destruct (Mongo.find_one (q_file_id o) (files_col w)) as [doc|] eqn:Hfind.
  2:{ unfold UpdateFile in H. unfold bind at 1 in H. rewrite Hid in H.
      unfold ObjectId_ in H. rewrite Ho in H.
      unfold bind, when, ret, gets, abort in H. cbn [negb] in H.
      cbv beta iota in H. rewrite Hf, Hfind in H. discriminate H. }
  exists doc. split; [exact Hid|]. split; [reflexivity|].
  split; [reflexivity|].
  destruct (UpdateFile_run _ _ _ _ _ _ _ _ Hid Ho Hfind) as [Hrun _].
  rewrite Hrun in H. destruct (_can_write doc (Some u)); [reflexivity|].
  discriminate H.
Qed.

Lemma is_public_overwritten (req : bool) (stored : option bool) :
  match (if negb (Py.eq_opt_bool (Some req) stored) then Some req else None)
  with
  | Some b => Some b
  | None => stored
  end = Some req.
Proof.
  destruct (Py.eq_opt_bool (Some req) stored) eqn:E; simpl; [|reflexivity].
  apply eq_opt_bool_true in E. now symmetry.
Qed.

Lemma is_public_written_iff (req : bool) (stored : option bool) (b : bool) :
  (if negb (Py.eq_opt_bool (Some req) stored) then Some req else None)
  = Some b <-> b = req /\ stored <> Some req.
Proof.
  destruct (Py.eq_opt_bool (Some req) stored) eqn:E; simpl.
  - apply eq_opt_bool_true in E. split; [discriminate|].
    intros [_ H]. congruence.
  - split.
    + intros H. injection H as <-. split; [reflexivity|].
      intros ->. assert (Py.eq_opt_bool (Some req) (Some req) = true)
        by now apply eq_opt_bool_true. congruence.
    + intros [-> _]. reflexivity.
Qed.

(** C10. After every UpdateDirectory or UpdateFile that answers, the stored
    [is_public] is the request's [is_public], and so is the answer's: the
    key is written exactly when the request's value differs from the stored
    one, so no request value leaves a differing stored value in place. *)
Theorem Update_is_public_overwritten (self : CatalogService)
    (context : Metadata) (w w' : world) :
  (forall request resp,
     UpdateDirectory self request context w = (Ret resp, w') ->
     dr_is_public resp = ud_is_public request
     /\ exists o updated,
          ObjectId (ud_id request) = Some o
          /\ Mongo.find_one (q_dir_id o) (dirs_col w') = Some updated
          /\ is_public updated = Some (ud_is_public request))
  /\ (forall request resp,
        UpdateFile self request context w = (Ret resp, w') ->
        fr_is_public resp = uf_is_public request
        /\ exists o updated,
             ObjectId (uf_id request) = Some o
             /\ Mongo.find_one (q_file_id o) (files_col w') = Some updated
             /\ is_public updated = Some (uf_is_public request))
  /\ (forall request (doc : directory) b,
        set_is_public (dir_update_fields_of request doc) = Some b <->
        b = ud_is_public request /\
        is_public doc <> Some (ud_is_public request))
  /\ (forall request (doc : file) b,
        fset_is_public (file_update_fields_of request doc) = Some b <->
        b = uf_is_public request /\
        is_public doc <> Some (uf_is_public request)).
Proof.
  split; [|split; [|split]].
  - intros request resp H.
    destruct (UpdateDirectory_success _ _ _ _ _ _ H)
      as (u & w1 & o & doc & Hid & Ho & Hfind & Hw).
    destruct (UpdateDirectory_run _ _ _ _ _ _ _ _ Hid Ho Hfind)
      as [Hrun Hstored].
    rewrite Hw, H in Hrun. injection Hrun as -> ->.
    assert (Hpub : is_public (dir_set (dir_update_fields_of request doc) doc)
                   = Some (ud_is_public request))
      by apply is_public_overwritten.
    split.
    + unfold directory_response. cbn [dr_is_public]. now rewrite Hpub.
    + exists o. eexists. split; [exact Ho|]. split; [exact Hstored|exact Hpub].
  - intros request resp H.
    destruct (UpdateFile_success _ _ _ _ _ _ H)
      as (u & w1 & o & doc & Hid & Ho & Hfind & Hw).
    destruct (UpdateFile_run _ _ _ _ _ _ _ _ Hid Ho Hfind)
      as [Hrun Hstored].
    rewrite Hw, H in Hrun. injection Hrun as -> ->.
    assert (Hpub : is_public (file_set (file_update_fields_of request doc) doc)
                   = Some (uf_is_public request))
      by apply is_public_overwritten.
    split.
    + unfold file_response. cbn [fr_is_public]. now rewrite Hpub.
    + exists o. eexists. split; [exact Ho|]. split; [exact Hstored|exact Hpub].
  - intros request doc b. apply is_public_written_iff.
  - intros request doc b. apply is_public_written_iff.
Qed.

Lemma Update_is_public_overwritten_witness :
  is_public dir_sub = Some true
  /\ exists updated,
       Mongo.find_one (q_dir_id oid_sub)
         (dirs_col (snd (UpdateDirectory svc
            (mkUpdateDirectoryRequest (str oid_sub) "Renamed" "no_change"
                                      false [] [])
            meta_owner world_with_subdir))) = Some updated
       /\ d_name updated = "Renamed"%string
       /\ is_public updated = Some false.
Proof.
  split; [reflexivity|].
  destruct (Update_is_public_overwritten svc meta_owner world_with_subdir
              (snd (UpdateDirectory svc
                 (mkUpdateDirectoryRequest (str oid_sub) "Renamed" "no_change"
                                           false [] [])
                 meta_owner world_with_subdir))) as [Hdir _].
  destruct (Hdir (mkUpdateDirectoryRequest (str oid_sub) "Renamed" "no_change"
                                           false [] [])
                 {| dr_id := str oid_sub
                  ; dr_name := "Renamed"
                  ; dr_parent_id := str oid_docs
                  ; dr_is_public := false
                  ; dr_owner_id := id_owner
                  ; dr_allowed_readers := []
                  ; dr_allowed_writers := [] |}
                 eq_refl) as [_ [o [updated [Ho [Hstored Hpub]]]]].
  vm_compute in Ho. injection Ho as <-.
  exists updated. split; [exact Hstored|]. split; [|exact Hpub].
  vm_compute in Hstored. injection Hstored as <-. reflexivity.
Defined.

(** ** Listing a directory *)

Lemma visible_dirs_loop_filter (user_id : option Z) (l : list directory) :
  visible_dirs_loop user_id l =
  map directory_response (filter (fun d : directory => _can_read d user_id) l).
Proof.
  unfold visible_dirs_loop.
  enough (H : forall acc,
            fold_left
              (fun (visible_dirs : list DirectoryResponse) (d : directory) =>
                 if _can_read d user_id
                 then visible_dirs ++ [directory_response d]
                 else visible_dirs) l acc
            = acc ++ map directory_response
                         (filter (fun d : directory => _can_read d user_id) l))
    by apply (H []).
  induction l as [|d l IH]; intros acc; simpl.
  - now rewrite app_nil_r.
  - rewrite IH. destruct (_can_read d user_id); simpl; [|reflexivity].
    now rewrite <- app_assoc.
Qed.

Lemma visible_files_loop_filter (user_id : option Z) (l : list file) :
  visible_files_loop user_id l =
  map file_response (filter (fun f : file => _can_read f user_id) l).
Proof.
  unfold visible_files_loop.
  enough (H : forall acc,
            fold_left
              (fun (visible_files : list FileResponse) (f : file) =>
                 if _can_read f user_id
                 then visible_files ++ [file_response f]
                 else visible_files) l acc
            = acc ++ map file_response
                         (filter (fun f : file => _can_read f user_id) l))
    by apply (H []).
  induction l as [|f l IH]; intros acc; simpl.
  - now rewrite app_nil_r.
  - rewrite IH. destruct (_can_read f user_id); simpl; [|reflexivity].
    now rewrite <- app_assoc.
Qed.

Lemma GetDirectoryContent_run (self : CatalogService)
    (request : GetDirectoryRequest) (context : Metadata)
    (w w1 : world) (user_id : option Z) (is_auth : bool) :
  _get_user_identity self context w = (Ret (user_id, is_auth), w1) ->
  GetDirectoryContent self request context w =
  if Py.truthy (directory_id request) then
    match ObjectId (directory_id request) with
    | None => (Raise (InvalidId (directory_id request)), w1)
    | Some o =>
        match Mongo.find_one (q_dir_id o) (dirs_col w) with
        | None => (Abort NOT_FOUND "Directory not found", w1)
        | Some target_dir =>
            if _can_read target_dir user_id
            then (Ret (spec_listing w (Some (directory_id request)) user_id),
                  w1)
            else (Abort PERMISSION_DENIED
                        "You do not have permission to view this directory",
                  record_log
                    (LogWarning ("Access DENIED for user "
                                   ++ Py.str_opt_int user_id
                                   ++ " to dir " ++ directory_id request))
                    w1)
        end
    end
  else (Ret (spec_listing w None user_id), w1).
Proof.
  intros Hid.
  destruct (get_user_identity_frame _ _ _ _ _ Hid) as (Hd & Hf & _).
  unfold GetDirectoryContent. run_identity Hid.
  unfold spec_listing, spec_visible_dirs, spec_visible_files.
  destruct (Py.truthy (directory_id request)).
  - unfold ObjectId_. destruct (ObjectId (directory_id request)) as [o|];
      [|reflexivity].
    run_steps. rewrite Hd.
    destruct (Mongo.find_one (q_dir_id o) (dirs_col w)) as [t|];
      [|reflexivity].
    destruct (_can_read t user_id); cbn [negb]; cbv beta iota; [|reflexivity].
    rewrite Hd, Hf, visible_dirs_loop_filter, visible_files_loop_filter.
    reflexivity.
  - run_steps.
    rewrite Hd, Hf, visible_dirs_loop_filter, visible_files_loop_filter.
    reflexivity.
Qed.

Lemma spec_visible_dirs_In (w : world) (container : option string)
    (user_id : option Z) (d : directory) :
  In d (spec_visible_dirs w container user_id) <->
  In d (dirs_col w) /\ parent_id d = container /\ _can_read d user_id = true.
Proof.
  unfold spec_visible_dirs, q_parent_id.
  rewrite !filter_In, eq_opt_str_true. tauto.
Qed.

Lemma spec_visible_files_In (w : world) (container : option string)
    (user_id : option Z) (f : file) :
  In f (spec_visible_files w container user_id) <->
  In f (files_col w) /\ parent_directory_id f = container /\
  _can_read f user_id = true.
Proof.
  unfold spec_visible_files, q_parent_directory_id.
  rewrite !filter_In, eq_opt_str_true. tauto.
Qed.





(** The container is looked up under the id the request's string denotes,
    its content under the string itself: asked for [Archive] by its id in
    upper case, the service finds [Archive] and answers an empty listing,
    although the caller can read the sub-directory and the file stored
    under the id in lower case. *)
Example GetDirectoryContent_upper_case_id :
  ObjectId id_arch_upper = Some oid_arch
  /\ str oid_arch = id_arch
  /\ fst (GetDirectoryContent svc (mkGetDirectoryRequest id_arch)
                              meta_owner world_arch)
     = Ret {| directories := [directory_response dir_arch_sub]
            ; files := [file_response file_arch] |}
  /\ fst (GetDirectoryContent svc (mkGetDirectoryRequest id_arch_upper)
                              meta_owner world_arch)
     = Ret {| directories := []; files := [] |}.
Proof. repeat split. Qed.

(** ** Scenarios of the test suite, replayed on the model *)

Example test_09_succeeds :
  fst (test_09_delete_directory_with_files world_empty)
  = Ret {| success := true; message := "Deleted" |}.
Proof. reflexivity. Qed.

Example test_10_soft_failure :
  fst (test_10_fail_delete_directory_with_subdirectories world_empty)
  = Ret {| success := false; message := "Directory not empty" |}.
Proof. reflexivity. Qed.

Example test_13_lists_public_only :
  fst (test_13_public_vs_private_anonymous world_empty) = Ret ["ACL_Pub"%string].
Proof. reflexivity. Qed.

Example test_17_anonymous_write_rejected :
  fst (serve interceptor (CreateDirectory svc)
             (mkDetails "/catalog.CatalogService/CreateDirectory"
                        meta_anonymous)
             (mkCreateDirectoryRequest "Hacker" "" false [] []) world_empty)
  = Abort UNAUTHENTICATED "Auth required".
Proof. reflexivity. Qed.

Example test_18_invalid_token_rejected :
  fst (serve interceptor (CreateDirectory svc)
             (mkDetails "/catalog.CatalogService/CreateDirectory"
                        [("authorization", "Bearer fake-token")])
             (mkCreateDirectoryRequest "Hacker" "" false [] []) world_empty)
  = Abort UNAUTHENTICATED "Auth required".
Proof. reflexivity. Qed.

(* ===================================================================== *)
(** * Further properties of the service *)
(* ===================================================================== *)

(** ** Callers without an identity *)

(** Identity resolution answers the same in every world. *)
Lemma get_user_identity_outcome (self : CatalogService) (context : Metadata)
    (w w' : world) :
  fst (_get_user_identity self context w) =
  fst (_get_user_identity self context w').
Proof.
  unfold _get_user_identity.
  destruct (Py.dict_get "authorization" context) as [t|]; [|reflexivity].
  destruct (Py.truthy t); [|reflexivity]. simpl.
  unfold bind, GetCurrentUser. simpl.
  destruct (auth_stub self (bearer t)); reflexivity.
Qed.

(** X1. Every handler that changes the catalog aborts with
    UNAUTHENTICATED "Auth required" for a caller whose identity does not
    resolve, before it looks at the request: nothing is parsed, read or
    written. *)
Theorem write_handlers_reject_anonymous (self : CatalogService)
    (context : Metadata) (w w1 : world) :
  _get_user_identity self context w = (Ret (None, false), w1) ->
  store w1 = store w
  /\ (forall request, CreateDirectory self request context w
                      = (Abort UNAUTHENTICATED "Auth required", w1))
  /\ (forall request, UpdateDirectory self request context w
                      = (Abort UNAUTHENTICATED "Auth required", w1))
  /\ (forall request, DeleteDirectory self request context w
                      = (Abort UNAUTHENTICATED "Auth required", w1))
  /\ (forall request, RegisterFile self request context w
                      = (Abort UNAUTHENTICATED "Auth required", w1))
  /\ (forall request, UpdateFile self request context w
                      = (Abort UNAUTHENTICATED "Auth required", w1))
  /\ (forall request, DeleteFile self request context w
                      = (Abort UNAUTHENTICATED "Auth required", w1)).
Proof.
  intros Hid.
  destruct (get_user_identity_frame _ _ _ _ _ Hid) as (Hd & Hf & _).
  split; [unfold store; now rewrite Hd, Hf|].
  repeat split; intros request.
  - unfold CreateDirectory. run_identity Hid. reflexivity.
  - unfold UpdateDirectory. run_identity Hid. reflexivity.
  - unfold DeleteDirectory. run_identity Hid. reflexivity.
  - unfold RegisterFile. run_identity Hid. reflexivity.
  - unfold UpdateFile. run_identity Hid. reflexivity.
  - unfold DeleteFile. run_identity Hid. reflexivity.
Qed.

Lemma write_handlers_reject_anonymous_witness :
  DeleteFile svc (mkDeleteFileRequest "not an id")
             [("authorization", "Bearer fake-token")] world_with_file
  = (Abort UNAUTHENTICATED "Auth required",
     record_auth_call "fake-token" world_with_file).
Proof.
  destruct (write_handlers_reject_anonymous svc
              [("authorization", "Bearer fake-token")] world_with_file
              (record_auth_call "fake-token" world_with_file) eq_refl)
    as (_ & _ & _ & _ & _ & _ & H).
  apply H.
Defined.

(** ** Unknown and malformed ids *)

(** X2. For an authenticated caller, the four handlers that take an object
    id end in the uncaught [InvalidId] when [ObjectId] rejects the id, and
    abort with NOT_FOUND when it accepts the id and no document has it; in
    both cases nothing is written. *)
Theorem id_handlers_unknown_id (self : CatalogService) (context : Metadata)
    (w w1 : world) (u : Z) :
  _get_user_identity self context w = (Ret (Some u, true), w1) ->
  store w1 = store w
  /\ (forall request,
        match ObjectId (ud_id request) with
        | None => UpdateDirectory self request context w
                  = (Raise (InvalidId (ud_id request)), w1)
        | Some o =>
            Mongo.find_one (q_dir_id o) (dirs_col w) = None ->
            UpdateDirectory self request context w
            = (Abort NOT_FOUND "Directory not found", w1)
        end)
  /\ (forall request,
        match ObjectId (dd_id request) with
        | None => DeleteDirectory self request context w
                  = (Raise (InvalidId (dd_id request)), w1)
        | Some o =>
            Mongo.find_one (q_dir_id o) (dirs_col w) = None ->
            DeleteDirectory self request context w
            = (Abort NOT_FOUND "Not found", w1)
        end)
  /\ (forall request,
        match ObjectId (uf_id request) with
        | None => UpdateFile self request context w
                  = (Raise (InvalidId (uf_id request)), w1)
        | Some o =>
            Mongo.find_one (q_file_id o) (files_col w) = None ->
            UpdateFile self request context w
            = (Abort NOT_FOUND "File not found", w1)
        end)
  /\ (forall request,
        match ObjectId (df_id request) with
        | None => DeleteFile self request context w
                  = (Raise (InvalidId (df_id request)), w1)
        | Some o =>
            Mongo.find_one (q_file_id o) (files_col w) = None ->
            DeleteFile self request context w
            = (Abort NOT_FOUND "File not found", w1)
        end).
Proof.
  intros Hid.
  destruct (get_user_identity_frame _ _ _ _ _ Hid) as (Hd & Hf & _).
  split; [unfold store; now rewrite Hd, Hf|].
  repeat split; intros request.
  - destruct (ObjectId (ud_id request)) as [o|] eqn:Ho; [intros Hnone|];
      unfold UpdateDirectory; run_identity Hid; unfold ObjectId_; rewrite Ho;
      [|reflexivity].
    run_steps. now rewrite Hd, Hnone.
  - destruct (ObjectId (dd_id request)) as [o|] eqn:Ho; [intros Hnone|];
      unfold DeleteDirectory; run_identity Hid; unfold ObjectId_; rewrite Ho;
      [|reflexivity].
    run_steps. now rewrite Hd, Hnone.
  - destruct (ObjectId (uf_id request)) as [o|] eqn:Ho; [intros Hnone|];
      unfold UpdateFile; run_identity Hid; unfold ObjectId_; rewrite Ho;
      [|reflexivity].
    run_steps. now rewrite Hf, Hnone.
  - destruct (ObjectId (df_id request)) as [o|] eqn:Ho; [intros Hnone|];
      unfold DeleteFile; run_identity Hid; unfold ObjectId_; rewrite Ho;
      [|reflexivity].
    run_steps. now rewrite Hf, Hnone.
Qed.

Lemma id_handlers_unknown_id_witness :
  DeleteDirectory svc (mkDeleteDirectoryRequest (str oid_f1)) meta_owner
                  world_with_file
  = (Abort NOT_FOUND "Not found",
     record_auth_call "sess-owner" world_with_file).
Proof.
  destruct (id_handlers_unknown_id svc meta_owner world_with_file
              (record_auth_call "sess-owner" world_with_file)
              id_owner eq_refl) as (_ & _ & H & _).
  exact (H (mkDeleteDirectoryRequest (str oid_f1)) eq_refl).
Defined.

(** ** Creation *)

(** X3. For an authenticated caller CreateDirectory appends exactly one
    directory to the collection and touches nothing else.  The new
    directory is owned by the caller, carries the request's name, flag and
    lists, and has the root ([None]) as parent when the request's
    [parent_id] is empty and that string otherwise, whether or not any
    directory has that id.  The answer echoes the request, with the caller
    as owner, and the creator can read and write what was created. *)
Theorem CreateDirectory_spec (self : CatalogService)
    (request : CreateDirectoryRequest) (context : Metadata)
    (w w1 : world) (u : Z) :
  _get_user_identity self context w = (Ret (Some u, true), w1) ->
  exists doc w',
    CreateDirectory self request context w = (Ret (directory_response doc), w')
    /\ dirs_col w' = dirs_col w ++ [doc]
    /\ files_col w' = files_col w
    /\ file_calls w' = file_calls w /\ logger w' = logger w
    /\ d_name doc = cd_name request
    /\ (cd_parent_id request = EmptyString -> parent_id doc = None)
    /\ (cd_parent_id request <> EmptyString ->
        parent_id doc = Some (cd_parent_id request))
    /\ d_acl doc = {| is_public := Some (cd_is_public request)
                    ; owner_id := Some u
                    ; allowed_readers := Some (cd_allowed_readers request)
                    ; allowed_writers := Some (cd_allowed_writers request) |}
    /\ directory_response doc =
       {| dr_id := str (d_id doc)
        ; dr_name := cd_name request
        ; dr_parent_id := cd_parent_id request
        ; dr_is_public := cd_is_public request
        ; dr_owner_id := u
        ; dr_allowed_readers := cd_allowed_readers request
        ; dr_allowed_writers := cd_allowed_writers request |}
    /\ _can_read doc (Some u) = true
    /\ _can_write doc (Some u) = true.
Proof.
  intros Hid.
  destruct (get_user_identity_frame _ _ _ _ _ Hid) as (Hd & Hf & _ & Hc & Hl).
  unfold CreateDirectory. run_identity Hid.
  unfold fresh_oid. run_steps. cbn [negb]. cbv beta iota.
  eexists. eexists. split; [reflexivity|]. simpl.
  rewrite Hd, Hf, Hc, Hl.
  repeat (split; [reflexivity|]).
  split.
  { intros E. apply truthy_false in E. now rewrite E. }
  split.
  { intros E. apply truthy_true in E. now rewrite E. }
  split; [reflexivity|]. split.
  { unfold directory_response. simpl. f_equal.
    destruct (Py.truthy (cd_parent_id request)) eqn:E; [reflexivity|].
    apply truthy_false in E. now rewrite E. }
  split; [apply can_write_can_read|];
    unfold _can_write; simpl; now rewrite Z.eqb_refl.
Qed.

Lemma CreateDirectory_spec_witness :
  exists doc w',
    CreateDirectory svc (mkCreateDirectoryRequest "New" "" true [] []) meta_owner
                    world_with_file = (Ret (directory_response doc), w')
    /\ dirs_col w' = [dir_docs; doc]
    /\ parent_id doc = None.
Proof.
  destruct (CreateDirectory_spec svc
              (mkCreateDirectoryRequest "New" "" true [] []) meta_owner
              world_with_file
              (record_auth_call "sess-owner" world_with_file)
              id_owner eq_refl)
    as [doc [w' (Hrun & Hdirs & _ & _ & _ & _ & Hroot & _)]].
  exists doc, w'. split; [exact Hrun|]. split; [exact Hdirs|].
  exact (Hroot eq_refl).
Defined.

(** X4. For an authenticated caller RegisterFile appends exactly one file
    to the collection and touches nothing else, the directories and the
    blob collaborator included.  The new file is owned by the caller and
    stores the request's [parent_directory_id] as it is, the empty string
    too, whether or not a directory has that id; the answer echoes the
    request with the caller as owner. *)
Theorem RegisterFile_spec (self : CatalogService)
    (request : RegisterFileRequest) (context : Metadata)
    (w w1 : world) (u : Z) :
  _get_user_identity self context w = (Ret (Some u, true), w1) ->
  exists doc w',
    RegisterFile self request context w = (Ret (file_response doc), w')
    /\ files_col w' = files_col w ++ [doc]
    /\ dirs_col w' = dirs_col w
    /\ file_calls w' = file_calls w /\ logger w' = logger w
    /\ f_name doc = rf_name request
    /\ parent_directory_id doc = Some (rf_parent_directory_id request)
    /\ external_file_id doc = rf_external_file_id request
    /\ f_acl doc = {| is_public := Some (rf_is_public request)
                    ; owner_id := Some u
                    ; allowed_readers := Some (rf_allowed_readers request)
                    ; allowed_writers := Some (rf_allowed_writers request) |}
    /\ file_response doc =
       {| fr_id := str (f_id doc)
        ; fr_name := rf_name request
        ; fr_external_file_id := rf_external_file_id request
        ; fr_is_public := rf_is_public request
        ; fr_owner_id := u
        ; fr_allowed_readers := rf_allowed_readers request
        ; fr_allowed_writers := rf_allowed_writers request |}.
Proof.
  intros Hid.
  destruct (get_user_identity_frame _ _ _ _ _ Hid) as (Hd & Hf & _ & Hc & Hl).
  unfold RegisterFile. run_identity Hid.
  unfold fresh_oid. run_steps. cbn [negb]. cbv beta iota.
  eexists. eexists. split; [reflexivity|]. simpl.
  rewrite Hd, Hf, Hc, Hl. repeat split.
Qed.

Lemma RegisterFile_spec_witness :
  exists doc w',
    RegisterFile svc (mkRegisterFileRequest "f2" "" "e2" false [] [])
                 meta_owner world_with_file = (Ret (file_response doc), w')
    /\ files_col w' = [file_f1; doc]
    /\ parent_directory_id doc = Some EmptyString.
Proof.
  destruct (RegisterFile_spec svc
              (mkRegisterFileRequest "f2" "" "e2" false [] []) meta_owner
              world_with_file
              (record_auth_call "sess-owner" world_with_file)
              id_owner eq_refl)
    as [doc [w' (Hrun & Hfiles & _ & _ & _ & _ & Hparent & _)]].
  exists doc, w'. split; [exact Hrun|]. split; [exact Hfiles|exact Hparent].
Defined.

(** ** Every path of the handlers that take an id *)

Lemma UpdateDirectory_paths (self : CatalogService)
    (request : UpdateDirectoryRequest) (context : Metadata) (w : world) :
  exists w1,
    snd (_get_user_identity self context w) = w1 /\
    (UpdateDirectory self request context w
     = (Abort UNAUTHENTICATED "Auth required", w1)
     \/ UpdateDirectory self request context w
        = (Raise (InvalidId (ud_id request)), w1)
     \/ UpdateDirectory self request context w
        = (Abort NOT_FOUND "Directory not found", w1)
     \/ UpdateDirectory self request context w
        = (Abort PERMISSION_DENIED "No write permission", w1)
     \/ exists u o doc,
          _get_user_identity self context w = (Ret (Some u, true), w1) /\
          ObjectId (ud_id request) = Some o /\
          Mongo.find_one (q_dir_id o) (dirs_col w) = Some doc /\
          _can_write doc (Some u) = true).
Proof.
  destruct (get_user_identity_cases self context w) as [[u [w1 Hid]]|[w1 Hid]];
    exists w1; (split; [now rewrite Hid|]).
  2:{ left. unfold UpdateDirectory. run_identity Hid. reflexivity. }
  destruct (get_user_identity_frame _ _ _ _ _ Hid) as (Hd & _).
  right.
  destruct (ObjectId (ud_id request)) as [o|] eqn:Ho.
  2:{ left. unfold UpdateDirectory. run_identity Hid.
      unfold ObjectId_. rewrite Ho. reflexivity. }
  right.
  destruct (Mongo.find_one (q_dir_id o) (dirs_col w)) as [doc|] eqn:Hfind.
  2:{ left. unfold UpdateDirectory. run_identity Hid.
      unfold ObjectId_. rewrite Ho. run_steps. now rewrite Hd, Hfind. }
  right.
  destruct (UpdateDirectory_run _ request _ _ _ _ _ _ Hid Ho Hfind) as [Hrun _].
  destruct (_can_write doc (Some u)) eqn:Hw; [right|left; exact Hrun].
  exists u, o, doc. auto.
Qed.

Lemma UpdateFile_paths (self : CatalogService)
    (request : UpdateFileRequest) (context : Metadata) (w : world) :
  exists w1,
    snd (_get_user_identity self context w) = w1 /\
    (UpdateFile self request context w
     = (Abort UNAUTHENTICATED "Auth required", w1)
     \/ UpdateFile self request context w
        = (Raise (InvalidId (uf_id request)), w1)
     \/ UpdateFile self request context w
        = (Abort NOT_FOUND "File not found", w1)
     \/ UpdateFile self request context w
        = (Abort PERMISSION_DENIED "No write permission", w1)
     \/ exists u o doc,
          _get_user_identity self context w = (Ret (Some u, true), w1) /\
          ObjectId (uf_id request) = Some o /\
          Mongo.find_one (q_file_id o) (files_col w) = Some doc /\
          _can_write doc (Some u) = true).
Proof.
  destruct (get_user_identity_cases self context w) as [[u [w1 Hid]]|[w1 Hid]];
    exists w1; (split; [now rewrite Hid|]).
  2:{ left. unfold UpdateFile. run_identity Hid. reflexivity. }
  destruct (get_user_identity_frame _ _ _ _ _ Hid) as (_ & Hf & _).
  right.
  destruct (ObjectId (uf_id request)) as [o|] eqn:Ho.
  2:{ left. unfold UpdateFile. run_identity Hid.
      unfold ObjectId_. rewrite Ho. reflexivity. }
  right.
  destruct (Mongo.find_one (q_file_id o) (files_col w)) as [doc|] eqn:Hfind.
  2:{ left. unfold UpdateFile. run_identity Hid.
      unfold ObjectId_. rewrite Ho. run_steps. now rewrite Hf, Hfind. }
  right.
  destruct (UpdateFile_run _ request _ _ _ _ _ _ Hid Ho Hfind) as [Hrun _].
  destruct (_can_write doc (Some u)) eqn:Hw; [right|left; exact Hrun].
  exists u, o, doc. auto.
Qed.

Lemma DeleteDirectory_paths (self : CatalogService)
    (request : DeleteDirectoryRequest) (context : Metadata) (w : world) :
  exists w1,
    snd (_get_user_identity self context w) = w1 /\
    (DeleteDirectory self request context w
     = (Abort UNAUTHENTICATED "Auth required", w1)
     \/ DeleteDirectory self request context w
        = (Raise (InvalidId (dd_id request)), w1)
     \/ DeleteDirectory self request context w
        = (Abort NOT_FOUND "Not found", w1)
     \/ exists u o doc,
          _get_user_identity self context w = (Ret (Some u, true), w1) /\
          ObjectId (dd_id request) = Some o /\
          Mongo.find_one (q_dir_id o) (dirs_col w) = Some doc).
Proof.
  destruct (get_user_identity_cases self context w) as [[u [w1 Hid]]|[w1 Hid]];
    exists w1; (split; [now rewrite Hid|]).
  2:{ left. unfold DeleteDirectory. run_identity Hid. reflexivity. }
  destruct (get_user_identity_frame _ _ _ _ _ Hid) as (Hd & _).
  right.
  destruct (ObjectId (dd_id request)) as [o|] eqn:Ho.
  2:{ left. unfold DeleteDirectory. run_identity Hid.
      unfold ObjectId_. rewrite Ho. reflexivity. }
  right.
  destruct (Mongo.find_one (q_dir_id o) (dirs_col w)) as [doc|] eqn:Hfind.
  2:{ left. unfold DeleteDirectory. run_identity Hid.
      unfold ObjectId_. rewrite Ho. run_steps. now rewrite Hd, Hfind. }
  right. exists u, o, doc. auto.
Qed.

Lemma DeleteFile_paths (self : CatalogService)
    (request : DeleteFileRequest) (context : Metadata) (w : world) :
  exists w1,
    snd (_get_user_identity self context w) = w1 /\
    (DeleteFile self request context w
     = (Abort UNAUTHENTICATED "Auth required", w1)
     \/ DeleteFile self request context w
        = (Raise (InvalidId (df_id request)), w1)
     \/ DeleteFile self request context w
        = (Abort NOT_FOUND "File not found", w1)
     \/ exists u o doc,
          _get_user_identity self context w = (Ret (Some u, true), w1) /\
          ObjectId (df_id request) = Some o /\
          Mongo.find_one (q_file_id o) (files_col w) = Some doc).
Proof.
  destruct (get_user_identity_cases self context w) as [[u [w1 Hid]]|[w1 Hid]];
    exists w1; (split; [now rewrite Hid|]).
  2:{ left. unfold DeleteFile. run_identity Hid. reflexivity. }
  destruct (get_user_identity_frame _ _ _ _ _ Hid) as (_ & Hf & _).
  right.
  destruct (ObjectId (df_id request)) as [o|] eqn:Ho.
  2:{ left. unfold DeleteFile. run_identity Hid.
      unfold ObjectId_. rewrite Ho. reflexivity. }
  right.
  destruct (Mongo.find_one (q_file_id o) (files_col w)) as [doc|] eqn:Hfind.
  2:{ left. unfold DeleteFile. run_identity Hid.
      unfold ObjectId_. rewrite Ho. run_steps. now rewrite Hf, Hfind. }
  right. exists u, o, doc. auto.
Qed.

(** ** The blob collaborator *)

Lemma delete_files_loop_spec (self : FileServiceClient)
    (external_ids : list string) (w : world) :
  delete_files_loop self external_ids w =
  (Ret tt,
   mkWorld (dirs_col w) (files_col w) (oid_counter w) (auth_calls w)
           (file_calls w ++ external_ids)
           (logger w ++
            flat_map (fun ext_id =>
                        match fs_stub self ext_id with
                        | Reply _ => []
                        | RpcError e =>
                            [LogError ("File Service error: " ++ e)]
                        end) external_ids)).
Proof.
  revert w. induction external_ids as [|ext_id rest IH]; intros w.
  - simpl. rewrite !app_nil_r. now destruct w.
  - cbn [delete_files_loop flat_map].
    unfold bind at 1. unfold bind at 1. unfold FileStub_DeleteFile.
    cbv beta iota.
    destruct (fs_stub self ext_id) as [[]|e].
    + unfold ret at 1. cbv beta iota. rewrite IH. simpl.
      now rewrite <- app_assoc.
    + unfold log, modify. cbv beta iota. rewrite IH. simpl.
      now rewrite <- !app_assoc.
Qed.

(** X5. [delete_files] calls the blob collaborator once for every id of the
    list, in order, whatever the earlier calls answered; each failing call
    leaves one error record in the log, in order; the function always
    returns, and changes neither the catalog nor anything else.  With the
    empty list it does nothing. *)
Theorem delete_files_spec (self : FileServiceClient)
    (external_ids : list string) (w : world) :
  exists w',
    delete_files self external_ids w = (Ret tt, w')
    /\ file_calls w' = file_calls w ++ external_ids
    /\ logger w' =
       logger w ++
       flat_map (fun ext_id =>
                   match fs_stub self ext_id with
                   | Reply _ => []
                   | RpcError e => [LogError ("File Service error: " ++ e)]
                   end) external_ids
    /\ store w' = store w
    /\ auth_calls w' = auth_calls w
    /\ oid_counter w' = oid_counter w
    /\ (external_ids = [] -> w' = w).
Proof.
  unfold delete_files. destruct external_ids as [|ext_id rest].
  - exists w. rewrite !app_nil_r. repeat split.
  - rewrite delete_files_loop_spec. eexists. split; [reflexivity|].
    repeat split. discriminate.
Qed.

Lemma delete_files_spec_witness :
  delete_files (mkFileServiceClient FileServiceDown) [] world_with_file
  = (Ret tt, world_with_file).
Proof.
  destruct (delete_files_spec (mkFileServiceClient FileServiceDown) []
                              world_with_file)
    as [w' (Hrun & _ & _ & _ & _ & _ & Hnil)].
  rewrite Hrun, (Hnil eq_refl). reflexivity.
Defined.

(** ** What a handler leaves alone *)

Lemma DeleteDirectory_frame (self : CatalogService)
    (request : DeleteDirectoryRequest) (context : Metadata) (w : world) :
  file_calls (snd (DeleteDirectory self request context w)) = file_calls w
  /\ logger (snd (DeleteDirectory self request context w)) = logger w.
Proof.
  destruct (DeleteDirectory_paths self request context w)
    as [w1 [Hw1 [H|[H|[H|[u [o [doc [Hid [Ho Hfind]]]]]]]]]];
    destruct (get_user_identity_world self context w) as [r [calls [_ Hw]]];
    rewrite Hw1 in Hw; clear Hw1.
  1-3: rewrite H; subst w1; split; reflexivity.
  rewrite (DeleteDirectory_run _ _ _ _ _ _ _ _ Hid Ho Hfind).
  destruct (negb _); [subst w1; split; reflexivity|].
  destruct (0 <? _)%nat; subst w1; split; reflexivity.
Qed.

(** X6. When the owner's DeleteDirectory of a directory D, named by its id
    as the service reports it, succeeds, every file that has D's id as its
    [parent_directory_id] is gone from the catalog, yet the blob
    collaborator has not been called and nothing has been logged: the
    files deleted in cascade keep their content in the external store. *)
Theorem DeleteDirectory_leaves_blobs (self : CatalogService)
    (request : DeleteDirectoryRequest) (context : Metadata)
    (w w1 : world) (u : Z) (o : oid) (D : directory) :
  _get_user_identity self context w = (Ret (Some u, true), w1) ->
  dd_id request = str (d_id D) ->
  ObjectId (dd_id request) = Some o ->
  Mongo.find_one (q_dir_id o) (dirs_col w) = Some D ->
  owner_id D = Some u ->
  ~ (exists child, In child (dirs_col w) /\
                   parent_id child = Some (str (d_id D))) ->
  exists w',
    DeleteDirectory self request context w
    = (Ret {| success := true; message := "Deleted" |}, w')
    /\ (forall f, In f (files_col w) ->
                  parent_directory_id f = Some (str (d_id D)) ->
                  ~ In f (files_col w'))
    /\ file_calls w' = file_calls w
    /\ logger w' = logger w.
Proof.
  intros Hid Hcanon Ho Hfind Hown Hnone.
  destruct (DeleteDirectory_frame self request context w) as [Hc Hl].
  rewrite (DeleteDirectory_run _ _ _ _ _ _ _ _ Hid Ho Hfind), Hown in *.
  unfold Py.eq_opt_int in *. rewrite Z.eqb_refl in *. cbn [negb] in *.
  rewrite Hcanon in *.
  destruct (0 <? _)%nat eqn:Hz.
  { exfalso. apply Hnone. now apply has_child_dir_count. }
  eexists. split; [reflexivity|]. split; [|split; assumption].
  intros f Hin Hp. simpl. intros Hin'.
  apply delete_many_In in Hin'. destruct Hin' as [_ Hq].
  unfold q_parent_directory_id in Hq. rewrite Hp in Hq.
  assert (Py.eq_opt_str (Some (str (d_id D))) (Some (str (d_id D))) = true)
    by now apply eq_opt_str_true.
  congruence.
Qed.

Lemma DeleteDirectory_leaves_blobs_witness :
  exists w',
    DeleteDirectory svc (mkDeleteDirectoryRequest (str oid_docs)) meta_owner
                    world_with_file
    = (Ret {| success := true; message := "Deleted" |}, w')
    /\ ~ In file_f1 (files_col w')
    /\ file_calls w' = [].
Proof.
  destruct (DeleteDirectory_leaves_blobs svc
              (mkDeleteDirectoryRequest (str oid_docs)) meta_owner
              world_with_file
              (record_auth_call "sess-owner" world_with_file)
              id_owner oid_docs dir_docs
              eq_refl eq_refl eq_refl eq_refl eq_refl)
    as [w' (Hrun & Hgone & Hcalls & _)].
  - intros [child [[<-|[]] Hp]]. discriminate Hp.
  - exists w'. split; [exact Hrun|]. split; [|exact Hcalls].
    apply Hgone; [left; reflexivity | reflexivity].
Defined.

Lemma map_update_one {A B : Type} (key : A -> B) (q : A -> bool)
    (set : A -> A) (col : list A) :
  (forall d, key (set d) = key d) ->
  map key (Mongo.update_one q set col) = map key col.
Proof.
  intros Hkey. induction col as [|d col IH]; simpl; [reflexivity|].
  destruct (q d); simpl; [now rewrite Hkey | now rewrite IH].
Qed.

Lemma identity_world_eq (self : CatalogService) (context : Metadata)
    (w : world) :
  exists calls,
    snd (_get_user_identity self context w) =
    mkWorld (dirs_col w) (files_col w) (oid_counter w)
            (auth_calls w ++ calls) (file_calls w) (logger w).
Proof.
  destruct (get_user_identity_world self context w) as [r [calls [_ Hw]]].
  eauto.
Qed.

(** X7. UpdateDirectory and UpdateFile never add or remove a document and
    never change an [_id] or an [owner_id], whatever they answer: the ids
    and owners of the collection, in order, are the same before and after,
    and so are a file's parent and external id.  UpdateDirectory leaves the
    files alone and UpdateFile the directories, and neither calls the blob
    collaborator. *)
Theorem Update_keeps_ids_and_owners (self : CatalogService)
    (context : Metadata) (w : world) :
  (forall request,
     let w' := snd (UpdateDirectory self request context w) in
     map (fun d : directory => (d_id d, owner_id d)) (dirs_col w')
     = map (fun d : directory => (d_id d, owner_id d)) (dirs_col w)
     /\ files_col w' = files_col w
     /\ file_calls w' = file_calls w)
  /\ (forall request,
        let w' := snd (UpdateFile self request context w) in
        map (fun f : file => (f_id f, owner_id f, parent_directory_id f,
                              external_file_id f)) (files_col w')
        = map (fun f : file => (f_id f, owner_id f, parent_directory_id f,
                                external_file_id f)) (files_col w)
        /\ dirs_col w' = dirs_col w
        /\ file_calls w' = file_calls w).
Proof.
  split; intros request w'; unfold w'; clear w'.
  - destruct (identity_world_eq self context w) as [calls Hw].
    destruct (UpdateDirectory_paths self request context w)
      as [w1 [Hw1 [H|[H|[H|[H|[u [o [doc [Hid [Ho [Hfind Hcw]]]]]]]]]]]];
      rewrite Hw1 in Hw; clear Hw1.
    1-4: rewrite H; subst w1; repeat split.
    destruct (UpdateDirectory_run _ request _ _ _ _ _ _ Hid Ho Hfind)
      as [Hrun _].
    rewrite Hcw in Hrun. rewrite Hrun. cbn [snd].
    destruct (dir_update_nonempty _); subst w1; simpl;
      [|repeat split].
    split; [|split; reflexivity].
    now apply map_update_one.
  - destruct (identity_world_eq self context w) as [calls Hw].
    destruct (UpdateFile_paths self request context w)
      as [w1 [Hw1 [H|[H|[H|[H|[u [o [doc [Hid [Ho [Hfind Hcw]]]]]]]]]]]];
      rewrite Hw1 in Hw; clear Hw1.
    1-4: rewrite H; subst w1; repeat split.
    destruct (UpdateFile_run _ request _ _ _ _ _ _ Hid Ho Hfind)
      as [Hrun _].
    rewrite Hcw in Hrun. rewrite Hrun. cbn [snd].
    destruct (file_update_nonempty _); subst w1; simpl;
      [|repeat split].
    split; [|split; reflexivity].
    now apply map_update_one.
Qed.

Lemma CreateDirectory_frame (self : CatalogService)
    (request : CreateDirectoryRequest) (context : Metadata) (w : world) :
  files_col (snd (CreateDirectory self request context w)) = files_col w
  /\ file_calls (snd (CreateDirectory self request context w)) = file_calls w.
Proof.
  destruct (identity_world_eq self context w) as [calls Hw].
  destruct (get_user_identity_cases self context w) as [[u [w1 Hid]]|[w1 Hid]];
    rewrite Hid in Hw; simpl in Hw.
  - eassert (E : CreateDirectory self request context w = _).
    { unfold CreateDirectory. run_identity Hid. unfold fresh_oid. run_steps.
      reflexivity. }
    rewrite E. subst w1. split; reflexivity.
  - eassert (E : CreateDirectory self request context w = _).
    { unfold CreateDirectory. run_identity Hid. run_steps. reflexivity. }
    rewrite E. subst w1. split; reflexivity.
Qed.

Lemma RegisterFile_frame (self : CatalogService)
    (request : RegisterFileRequest) (context : Metadata) (w : world) :
  dirs_col (snd (RegisterFile self request context w)) = dirs_col w
  /\ file_calls (snd (RegisterFile self request context w)) = file_calls w.
Proof.
  destruct (identity_world_eq self context w) as [calls Hw].
  destruct (get_user_identity_cases self context w) as [[u [w1 Hid]]|[w1 Hid]];
    rewrite Hid in Hw; simpl in Hw.
  - eassert (E : RegisterFile self request context w = _).
    { unfold RegisterFile. run_identity Hid. unfold fresh_oid. run_steps.
      reflexivity. }
    rewrite E. subst w1. split; reflexivity.
  - eassert (E : RegisterFile self request context w = _).
    { unfold RegisterFile. run_identity Hid. run_steps. reflexivity. }
    rewrite E. subst w1. split; reflexivity.
Qed.

Lemma GetDirectoryContent_frame (self : CatalogService)
    (request : GetDirectoryRequest) (context : Metadata) (w : world) :
  store (snd (GetDirectoryContent self request context w)) = store w
  /\ oid_counter (snd (GetDirectoryContent self request context w))
     = oid_counter w
  /\ file_calls (snd (GetDirectoryContent self request context w))
     = file_calls w.
Proof.
  destruct (identity_world_eq self context w) as [calls Hw].
  destruct (get_user_identity_world self context w) as [[uid auth] [c [Hid _]]].
  rewrite (GetDirectoryContent_run _ request _ _ _ _ _ Hid).
  rewrite Hw.
  destruct (Py.truthy _); [|repeat split].
  destruct (ObjectId _); [|repeat split].
  destruct (Mongo.find_one _ _); [|repeat split].
  destruct (_can_read _ _); repeat split.
Qed.

Lemma DeleteFile_frame (self : CatalogService)
    (request : DeleteFileRequest) (context : Metadata) (w : world) :
  dirs_col (snd (DeleteFile self request context w)) = dirs_col w.
Proof.
  destruct (identity_world_eq self context w) as [calls Hw].
  destruct (DeleteFile_paths self request context w)
    as [w1 [Hw1 [H|[H|[H|[u [o [doc [Hid [Ho Hfind]]]]]]]]]];
    rewrite Hw1 in Hw; clear Hw1.
  1-3: rewrite H; subst w1; reflexivity.
  rewrite (DeleteFile_run _ _ _ _ _ _ _ _ Hid Ho Hfind).
  destruct (negb _); [subst w1; reflexivity|]. cbv zeta. cbn [snd].
  destruct (fs_stub _ _); subst w1; reflexivity.
Qed.

(** X8. What each handler leaves alone, whatever it answers:
    GetDirectoryContent changes neither collection and consumes no id;
    CreateDirectory never touches the files, RegisterFile and DeleteFile
    never touch the directories; of the seven handlers only DeleteFile
    ever calls the blob collaborator. *)
Theorem handlers_frame (self : CatalogService) (context : Metadata)
    (w : world) :
  (forall request,
     store (snd (GetDirectoryContent self request context w)) = store w
     /\ oid_counter (snd (GetDirectoryContent self request context w))
        = oid_counter w
     /\ file_calls (snd (GetDirectoryContent self request context w))
        = file_calls w)
  /\ (forall request,
        files_col (snd (CreateDirectory self request context w)) = files_col w
        /\ file_calls (snd (CreateDirectory self request context w))
           = file_calls w)
  /\ (forall request,
        dirs_col (snd (RegisterFile self request context w)) = dirs_col w
        /\ file_calls (snd (RegisterFile self request context w))
           = file_calls w)
  /\ (forall request,
        dirs_col (snd (DeleteFile self request context w)) = dirs_col w)
  /\ (forall request,
        file_calls (snd (UpdateDirectory self request context w))
        = file_calls w)
  /\ (forall request,
        file_calls (snd (UpdateFile self request context w)) = file_calls w)
  /\ (forall request,
        file_calls (snd (DeleteDirectory self request context w))
        = file_calls w).
Proof.
  split; [intros; apply GetDirectoryContent_frame|].
  split; [intros; apply CreateDirectory_frame|].
  split; [intros; apply RegisterFile_frame|].
  split; [intros; apply DeleteFile_frame|].
  split; [|split].
  - intros request. destruct (identity_world_eq self context w) as [calls Hw].
    destruct (UpdateDirectory_paths self request context w)
      as [w1 [Hw1 [H|[H|[H|[H|[u [o [doc [Hid [Ho [Hfind Hcw]]]]]]]]]]]];
      rewrite Hw1 in Hw; clear Hw1.
    1-4: rewrite H; subst w1; reflexivity.
    destruct (UpdateDirectory_run _ request _ _ _ _ _ _ Hid Ho Hfind)
      as [Hrun _].
    rewrite Hcw in Hrun. rewrite Hrun. cbn [snd].
    destruct (dir_update_nonempty _); subst w1; reflexivity.
  - intros request. destruct (identity_world_eq self context w) as [calls Hw].
    destruct (UpdateFile_paths self request context w)
      as [w1 [Hw1 [H|[H|[H|[H|[u [o [doc [Hid [Ho [Hfind Hcw]]]]]]]]]]]];
      rewrite Hw1 in Hw; clear Hw1.
    1-4: rewrite H; subst w1; reflexivity.
    destruct (UpdateFile_run _ request _ _ _ _ _ _ Hid Ho Hfind)
      as [Hrun _].
    rewrite Hcw in Hrun. rewrite Hrun. cbn [snd].
    destruct (file_update_nonempty _); subst w1; reflexivity.
  - intros request. apply DeleteDirectory_frame.
Qed.

(** ** More on permissions *)

(** X9. Whoever may write a document may read it; the owner may always do
    both, whatever the lists and the flag say; a caller without identity
    can never write, and can read exactly the public documents. *)
Theorem permission_order (doc : acl) :
  (forall user_id,
     _can_write doc user_id = true -> _can_read doc user_id = true)
  /\ (forall u, owner_id doc = Some u ->
                _can_write doc (Some u) = true /\
                _can_read doc (Some u) = true)
  /\ _can_write doc None = false
  /\ (_can_read doc None = true <-> is_public doc = Some true).
Proof.
  split; [intros; now apply can_write_can_read|]. split; [|split].
  - intros u Hown.
    assert (W : _can_write doc (Some u) = true)
      by (apply can_write_true; eauto).
    split; [exact W | now apply can_write_can_read].
  - reflexivity.
  - unfold _can_read. destruct (is_public doc) as [[|]|]; simpl;
      split; congruence.
Qed.

Lemma permission_order_witness : _can_read acl_shared (Some id_owner) = true.
Proof.
  destruct (permission_order acl_shared) as (_ & Hown & _).
  exact (proj2 (Hown id_owner eq_refl)).
Defined.

(** ** What an update can and cannot do to the access lists *)

(** X10. An update replaces an access list, it does not add to it: after an
    UpdateDirectory or UpdateFile that answers, with a non-empty
    [allowed_readers] in the request, the stored readers are exactly the
    request's, so a former reader who is not in the new list, is not the
    owner, is not a writer and faces a private object can no longer read
    it, while every member of the new list can; likewise the members of a
    non-empty [allowed_writers] can write.  No update empties a non-empty
    name or list, and the owner can read and write after every update. *)
Theorem Update_replaces_lists (self : CatalogService) (context : Metadata)
    (w w1 : world) (u : Z) :
  _get_user_identity self context w = (Ret (Some u, true), w1) ->
  (forall request o doc,
     ObjectId (ud_id request) = Some o ->
     Mongo.find_one (q_dir_id o) (dirs_col w) = Some doc ->
     _can_write doc (Some u) = true ->
     exists updated w',
       UpdateDirectory self request context w
       = (Ret (directory_response updated), w')
       /\ Mongo.find_one (q_dir_id o) (dirs_col w') = Some updated
       /\ (ud_allowed_readers request <> [] ->
           (forall r, In r (ud_allowed_readers request) ->
                      _can_read updated (Some r) = true)
           /\ (forall r, ~ In r (ud_allowed_readers request) ->
                         owner_id doc <> Some r ->
                         ~ In r (Py.get (allowed_writers updated) []) ->
                         ud_is_public request = false ->
                         _can_read updated (Some r) = false))
       /\ (ud_allowed_writers request <> [] ->
           forall r, In r (ud_allowed_writers request) ->
                     _can_write updated (Some r) = true)
       /\ (d_name doc <> EmptyString -> d_name updated <> EmptyString)
       /\ (Py.get (allowed_readers doc) [] <> [] ->
           Py.get (allowed_readers updated) [] <> [])
       /\ (Py.get (allowed_writers doc) [] <> [] ->
           Py.get (allowed_writers updated) [] <> [])
       /\ (forall v, owner_id doc = Some v ->
                     _can_write updated (Some v) = true /\
                     _can_read updated (Some v) = true))
  /\ (forall request o doc,
        ObjectId (uf_id request) = Some o ->
        Mongo.find_one (q_file_id o) (files_col w) = Some doc ->
        _can_write doc (Some u) = true ->
        exists updated w',
          UpdateFile self request context w
          = (Ret (file_response updated), w')
          /\ Mongo.find_one (q_file_id o) (files_col w') = Some updated
          /\ (uf_allowed_readers request <> [] ->
              (forall r, In r (uf_allowed_readers request) ->
                         _can_read updated (Some r) = true)
              /\ (forall r, ~ In r (uf_allowed_readers request) ->
                            owner_id doc <> Some r ->
                            ~ In r (Py.get (allowed_writers updated) []) ->
                            uf_is_public request = false ->
                            _can_read updated (Some r) = false))
          /\ (uf_allowed_writers request <> [] ->
              forall r, In r (uf_allowed_writers request) ->
                        _can_write updated (Some r) = true)
          /\ (f_name doc <> EmptyString -> f_name updated <> EmptyString)
          /\ (Py.get (allowed_readers doc) [] <> [] ->
              Py.get (allowed_readers updated) [] <> [])
          /\ (Py.get (allowed_writers doc) [] <> [] ->
              Py.get (allowed_writers updated) [] <> [])
          /\ (forall v, owner_id doc = Some v ->
                        _can_write updated (Some v) = true /\
                        _can_read updated (Some v) = true)).
Proof.
  intros Hid.
  assert (Hacl : forall (req_pub : bool) (req_r req_w : list Z)
                        (doc updated : acl) (n n' req_n : string),
            owner_id updated = owner_id doc ->
            spec_partial_name req_n n n' ->
            spec_partial_is_public req_pub (is_public doc) (is_public updated) ->
            spec_partial_list req_r (allowed_readers doc)
                              (allowed_readers updated) ->
            spec_partial_list req_w (allowed_writers doc)
                              (allowed_writers updated) ->
            (req_r <> [] ->
             (forall r, In r req_r -> _can_read updated (Some r) = true)
             /\ (forall r, ~ In r req_r -> owner_id doc <> Some r ->
                           ~ In r (Py.get (allowed_writers updated) []) ->
                           req_pub = false ->
                           _can_read updated (Some r) = false))
            /\ (req_w <> [] ->
                forall r, In r req_w -> _can_write updated (Some r) = true)
            /\ (n <> EmptyString -> n' <> EmptyString)
            /\ (Py.get (allowed_readers doc) [] <> [] ->
                Py.get (allowed_readers updated) [] <> [])
            /\ (Py.get (allowed_writers doc) [] <> [] ->
                Py.get (allowed_writers updated) [] <> [])
            /\ (forall v, owner_id doc = Some v ->
                          _can_write updated (Some v) = true /\
                          _can_read updated (Some v) = true)).
  { intros req_pub req_r req_w doc updated n n' req_n Hown Hn Hp Hr Hw.
    split; [|split; [|split; [|split; [|split]]]].
    - intros Hne. pose proof (proj1 Hr Hne) as Er. split.
      + intros r Hin. apply can_read_true. right. exists r.
        split; [reflexivity|]. right. left. now rewrite Er.
      + intros r Hnin Hnown Hnw Hpub.
        destruct (_can_read updated (Some r)) eqn:E; [|reflexivity].
        exfalso. apply can_read_true in E.
        assert (Epub : is_public updated = Some false).
        { subst req_pub. destruct Hp as [Hp1 Hp2].
          destruct (is_public doc) as [[|]|] eqn:Ed.
          - apply Hp1. discriminate.
          - now rewrite (Hp2 eq_refl).
          - apply Hp1. discriminate. }
        rewrite Epub, Er, Hown in E. simpl in E.
        destruct E as [E|[v [Hv [E|[E|E]]]]]; try discriminate;
          injection Hv as <-; contradiction.
    - intros Hne r Hin. pose proof (proj1 Hw Hne) as Ew.
      apply can_write_true. exists r. split; [reflexivity|].
      right. now rewrite Ew.
    - intros Hne E. destruct Hn as [Hn1 Hn2].
      destruct (string_dec req_n EmptyString) as [Hreq|Hreq].
      + rewrite (Hn2 Hreq) in E. contradiction.
      + rewrite (Hn1 Hreq) in E. contradiction.
    - intros Hne. destruct Hr as [Hr1 Hr2]. destruct req_r as [|x l].
      + now rewrite (Hr2 eq_refl).
      + rewrite Hr1; discriminate.
    - intros Hne. destruct Hw as [Hw1 Hw2]. destruct req_w as [|x l].
      + now rewrite (Hw2 eq_refl).
      + rewrite Hw1; discriminate.
    - intros v Hv.
      assert (W : _can_write updated (Some v) = true).
      { apply can_write_true. exists v. split; [reflexivity|].
        left. congruence. }
      split; [exact W | now apply can_write_can_read]. }
  split; intros request o doc Ho Hfind Hcw.
  - destruct (UpdateDirectory_run _ request _ _ _ _ _ _ Hid Ho Hfind)
      as [Hrun Hstored].
    rewrite Hcw in Hrun.
    eexists. eexists. split; [exact Hrun|]. split; [exact Hstored|].
    apply (Hacl (ud_is_public request) (ud_allowed_readers request)
                (ud_allowed_writers request) doc _ (d_name doc) _
                (ud_name request)).
    + reflexivity.
    + apply partial_name_ok.
    + apply partial_is_public_ok.
    + apply partial_list_ok.
    + apply partial_list_ok.
  - destruct (UpdateFile_run _ request _ _ _ _ _ _ Hid Ho Hfind)
      as [Hrun Hstored].
    rewrite Hcw in Hrun.
    eexists. eexists. split; [exact Hrun|]. split; [exact Hstored|].
    apply (Hacl (uf_is_public request) (uf_allowed_readers request)
                (uf_allowed_writers request) doc _ (f_name doc) _
                (uf_name request)).
    + reflexivity.
    + apply partial_name_ok.
    + apply partial_is_public_ok.
    + apply partial_list_ok.
    + apply partial_list_ok.
Qed.

Lemma Update_replaces_lists_witness :
  _can_read dir_docs (Some id_reader) = true
  /\ exists updated w',
       UpdateDirectory svc
         (mkUpdateDirectoryRequest (str oid_docs) "" "no_change" false
                                   [id_stranger] [])
         meta_writer world_with_file
       = (Ret (directory_response updated), w')
       /\ _can_read updated (Some id_stranger) = true
       /\ _can_read updated (Some id_reader) = false.
Proof.
  split; [reflexivity|].
  destruct (Update_replaces_lists svc meta_writer world_with_file
              (record_auth_call "sess-writer" world_with_file)
              id_writer eq_refl) as [Hdir _].
  destruct (Hdir (mkUpdateDirectoryRequest (str oid_docs) "" "no_change" false
                                           [id_stranger] [])
                 oid_docs dir_docs eq_refl eq_refl eq_refl)
    as [updated [w' (Hrun & Hstored & Hreaders & _)]].
  exists updated, w'. split; [exact Hrun|].
  destruct Hreaders as [Hin Hout]; [discriminate|].
  split; [apply Hin; left; reflexivity|].
  assert (Hw' : w' = snd (UpdateDirectory svc
            (mkUpdateDirectoryRequest (str oid_docs) "" "no_change" false
                                      [id_stranger] [])
            meta_writer world_with_file)) by (now rewrite Hrun).
  rewrite Hw' in Hstored.
  vm_compute in Hstored. injection Hstored as <-.
  apply Hout.
  - intros [H|[]]. discriminate H.
  - discriminate.
  - intros [H|[]]. discriminate H.
  - reflexivity.
Defined.

(** ** How the operations compose *)

(** The identity a context resolves to does not depend on the world. *)
Lemma identity_again (self : CatalogService) (context : Metadata)
    (w w1 w' : world) (r : option Z * bool) :
  _get_user_identity self context w = (Ret r, w1) ->
  exists w1', _get_user_identity self context w' = (Ret r, w1').
Proof.
  intros Hid.
  pose proof (get_user_identity_outcome self context w w') as E.
  rewrite Hid in E. simpl in E.
  destruct (_get_user_identity self context w') as [r' w1'].
  simpl in E. subst r'. eauto.
Qed.






Lemma fromhex_length (s : string) (o : oid) :
  ObjectId s = Some o -> String.length s = 24%nat.
Proof.
  unfold ObjectId. destruct (Nat.eqb_spec (String.length s) 24);
    [auto | discriminate].
Qed.

Lemma ObjectId_truthy (s : string) (o : oid) :
  ObjectId s = Some o -> Py.truthy s = true /\ s <> "no_change"%string.
Proof.
  intros H. apply fromhex_length in H. split.
  - apply truthy_true. intros ->. discriminate H.
  - intros ->. discriminate H.
Qed.

Lemma DeleteDirectory_unknown (self : CatalogService)
    (request : DeleteDirectoryRequest) (context : Metadata)
    (w w1 : world) (u : Z) (o : oid) :
  _get_user_identity self context w = (Ret (Some u, true), w1) ->
  ObjectId (dd_id request) = Some o ->
  Mongo.find_one (q_dir_id o) (dirs_col w) = None ->
  DeleteDirectory self request context w = (Abort NOT_FOUND "Not found", w1).
Proof.
  intros Hid Ho Hnone.
  destruct (get_user_identity_frame _ _ _ _ _ Hid) as (Hd & _).
  unfold DeleteDirectory. run_identity Hid. unfold ObjectId_. rewrite Ho.
  run_steps. now rewrite Hd, Hnone.
Qed.

Lemma DeleteFile_unknown (self : CatalogService)
    (request : DeleteFileRequest) (context : Metadata)
    (w w1 : world) (u : Z) (o : oid) :
  _get_user_identity self context w = (Ret (Some u, true), w1) ->
  ObjectId (df_id request) = Some o ->
  Mongo.find_one (q_file_id o) (files_col w) = None ->
  DeleteFile self request context w
  = (Abort NOT_FOUND "File not found", w1).
Proof.
  intros Hid Ho Hnone.
  destruct (get_user_identity_frame _ _ _ _ _ Hid) as (_ & Hf & _).
  unfold DeleteFile. run_identity Hid. unfold ObjectId_. rewrite Ho.
  run_steps. now rewrite Hf, Hnone.
Qed.

(** X12. Deleting twice: ids being unique, once DeleteDirectory has
    answered [success=true] the same request from the same caller aborts
    with NOT_FOUND, and so does a GetDirectoryContent of that id from any
    caller; likewise a second DeleteFile aborts with NOT_FOUND. *)
Theorem delete_then_not_found (self : CatalogService) (context : Metadata)
    (w w1 : world) (u : Z) :
  _get_user_identity self context w = (Ret (Some u, true), w1) ->
  (forall request o doc,
     ObjectId (dd_id request) = Some o ->
     Mongo.find_one (q_dir_id o) (dirs_col w) = Some doc ->
     NoDup (map d_id (dirs_col w)) ->
     fst (DeleteDirectory self request context w)
     = Ret {| success := true; message := "Deleted" |} ->
     let w' := snd (DeleteDirectory self request context w) in
     fst (DeleteDirectory self request context w')
     = Abort NOT_FOUND "Not found"
     /\ forall context',
          fst (GetDirectoryContent self
                 (mkGetDirectoryRequest (dd_id request)) context' w')
          = Abort NOT_FOUND "Directory not found")
  /\ (forall request o doc,
        ObjectId (df_id request) = Some o ->
        Mongo.find_one (q_file_id o) (files_col w) = Some doc ->
        NoDup (map f_id (files_col w)) ->
        fst (DeleteFile self request context w)
        = Ret {| success := true; message := "Deleted" |} ->
        let w' := snd (DeleteFile self request context w) in
        fst (DeleteFile self request context w')
        = Abort NOT_FOUND "File not found").
Proof.
  intros Hid.
  destruct (get_user_identity_frame _ _ _ _ _ Hid) as (Hd & Hf & _).
  split; intros request o doc Ho Hfind Hnd Hok w'.
  - assert (Hgone : Mongo.find_one (q_dir_id o) (dirs_col w') = None).
    { unfold w'. revert Hok.
      rewrite (DeleteDirectory_run _ _ _ _ _ _ _ _ Hid Ho Hfind).
      destruct (negb _); [discriminate|].
      destruct (0 <? _)%nat; [discriminate|]. intros _.
      cbn [snd]. unfold set_dirs, set_files. cbn [dirs_col]. rewrite Hd.
      apply delete_one_unique. apply (NoDup_ids_count _ d_id _ o Hnd). }
    split.
    + destruct (identity_again _ _ _ _ w' _ Hid) as [w1' Hid'].
      now rewrite (DeleteDirectory_unknown _ _ _ _ _ _ _ Hid' Ho Hgone).
    + intros context'.
      destruct (get_user_identity_world self context' w')
        as [[uid auth] [calls [Hid' _]]].
      rewrite (GetDirectoryContent_run _ _ _ _ _ _ _ Hid').
      cbn [directory_id].
      destruct (ObjectId_truthy _ _ Ho) as [-> _].
      now rewrite Ho, Hgone.
  - assert (Hgone : Mongo.find_one (q_file_id o) (files_col w') = None).
    { unfold w'. revert Hok.
      rewrite (DeleteFile_run _ _ _ _ _ _ _ _ Hid Ho Hfind).
      destruct (negb _); [discriminate|]. intros _. cbv zeta. cbn [snd].
      assert (E : forall w3,
                files_col (match fs_stub (file_service self)
                                         (external_file_id doc) with
                           | Reply _ => record_file_call (external_file_id doc) w3
                           | RpcError e =>
                               record_log
                                 (LogError ("File Service error: " ++ e))
                                 (record_file_call (external_file_id doc) w3)
                           end) = files_col w3).
      { intros w3. destruct (fs_stub _ _); reflexivity. }
      rewrite E. unfold set_files. cbn [files_col]. rewrite Hf.
      apply delete_one_unique. apply (NoDup_ids_count _ f_id _ o Hnd). }
    destruct (identity_again _ _ _ _ w' _ Hid) as [w1' Hid'].
    now rewrite (DeleteFile_unknown _ _ _ _ _ _ _ Hid' Ho Hgone).
Qed.

Lemma delete_then_not_found_witness :
  fst (DeleteFile svc (mkDeleteFileRequest (str oid_f1)) meta_owner
         (snd (DeleteFile svc (mkDeleteFileRequest (str oid_f1)) meta_owner
                          world_with_file)))
  = Abort NOT_FOUND "File not found".
Proof.
  destruct (delete_then_not_found svc meta_owner world_with_file
              (record_auth_call "sess-owner" world_with_file)
              id_owner eq_refl) as [_ Hfile].
  apply (Hfile (mkDeleteFileRequest (str oid_f1)) oid_f1 file_f1
               eq_refl eq_refl).
  - repeat constructor. simpl. intuition.
  - reflexivity.
Defined.

(** X13. No cycle is refused: the owner of a directory can move it under
    itself, and from then on its own DeleteDirectory answers
    [success=false] "Directory not empty", the directory counting as its
    own child. *)
Theorem UpdateDirectory_self_parent (self : CatalogService)
    (context : Metadata) (w w1 : world) (u : Z) (id : string) (o : oid)
    (doc : directory) (request : UpdateDirectoryRequest) :
  _get_user_identity self context w = (Ret (Some u, true), w1) ->
  ObjectId id = Some o ->
  Mongo.find_one (q_dir_id o) (dirs_col w) = Some doc ->
  owner_id doc = Some u ->
  ud_id request = id ->
  ud_parent_id request = id ->
  exists updated w',
    UpdateDirectory self request context w
    = (Ret (directory_response updated), w')
    /\ parent_id updated = Some id
    /\ fst (DeleteDirectory self (mkDeleteDirectoryRequest id) context w')
       = Ret {| success := false; message := "Directory not empty" |}
    /\ store (snd (DeleteDirectory self (mkDeleteDirectoryRequest id)
                                   context w')) = store w'.
Proof.
  intros Hid Ho Hfind Hown Hreq Hpar.
  destruct (ObjectId_truthy _ _ Ho) as [Htr Hnc].
  rewrite <- Hreq in Ho.
  destruct (UpdateDirectory_run _ request _ _ _ _ _ _ Hid Ho Hfind)
    as [Hrun Hstored].
  assert (Hcw : _can_write doc (Some u) = true)
    by (apply can_write_true; eauto).
  rewrite Hcw in Hrun. cbv zeta in Hrun, Hstored.
  set (updated := dir_set (dir_update_fields_of request doc) doc) in *.
  set (w' := if dir_update_nonempty (dir_update_fields_of request doc)
             then _ else w1) in *.
  assert (Hp : parent_id updated = Some id).
  { unfold updated. cbn. rewrite Hpar.
    destruct (String.eqb_spec id "no_change"); [contradiction|].
    cbn. now rewrite Htr. }
  exists updated, w'. split; [exact Hrun|]. split; [exact Hp|].
  destruct (identity_again _ _ _ _ w' _ Hid) as [w1' Hid'].
  destruct (get_user_identity_frame _ _ _ _ _ Hid') as (Hd' & Hf' & _).
  rewrite Hreq in Ho.
  rewrite (DeleteDirectory_run self (mkDeleteDirectoryRequest id) _ _ _ _ _ _
             Hid' Ho Hstored).
  assert (Hown' : owner_id updated = Some u) by exact Hown.
  rewrite Hown'. unfold Py.eq_opt_int. rewrite Z.eqb_refl. cbn [negb dd_id].
  assert (Hchild : (0 <? Mongo.count_documents (q_parent_id (Some id))
                                               (dirs_col w'))%nat = true).
  { apply has_child_dir_count. exists updated. split; [|exact Hp].
    unfold Mongo.find_one in Hstored. now apply find_some in Hstored. }
  rewrite Hchild. split; [reflexivity|].
  unfold store. cbn [snd]. now rewrite Hd', Hf'.
Qed.

Lemma UpdateDirectory_self_parent_witness :
  exists updated w',
    UpdateDirectory svc
      (mkUpdateDirectoryRequest (str oid_docs) "" (str oid_docs) false [] [])
      meta_owner world_with_file
    = (Ret (directory_response updated), w')
    /\ fst (DeleteDirectory svc (mkDeleteDirectoryRequest (str oid_docs))
                            meta_owner w')
       = Ret {| success := false; message := "Directory not empty" |}.
Proof.
  destruct (UpdateDirectory_self_parent svc meta_owner world_with_file
              (record_auth_call "sess-owner" world_with_file)
              id_owner (str oid_docs) oid_docs dir_docs
              (mkUpdateDirectoryRequest (str oid_docs) "" (str oid_docs)
                                        false [] [])
              eq_refl eq_refl eq_refl eq_refl eq_refl eq_refl)
    as [updated [w' (Hrun & _ & Hdel & _)]].
  exists updated, w'. split; [exact Hrun | exact Hdel].
Defined.

(** ** Creating, then listing *)

Lemma CreateDirectory_run (self : CatalogService)
    (request : CreateDirectoryRequest) (context : Metadata)
    (w w1 : world) (u : Z) :
  _get_user_identity self context w = (Ret (Some u, true), w1) ->
  let doc := created_directory request (Some u) (generate (oid_counter w)) in
  CreateDirectory self request context w =
  (Ret (directory_response doc),
   mkWorld (dirs_col w ++ [doc]) (files_col w) (N.succ (oid_counter w))
           (auth_calls w1) (file_calls w) (logger w)).
Proof.
  intros Hid doc.
  destruct (identity_world_eq self context w) as [calls Hw].
  rewrite Hid in Hw. simpl in Hw.
  unfold CreateDirectory. run_identity Hid. unfold fresh_oid. run_steps.
  subst w1. reflexivity.
Qed.






(** ** The id a creation answers opens what was created *)

Lemma hex_byte_roundtrip (b : byte) :
  is_space (hexdigit (Byte.to_N b / 16)) = false
  /\ hexval (hexdigit (Byte.to_N b / 16)) = Some (Byte.to_N b / 16)%N
  /\ hexval (hexdigit (Byte.to_N b mod 16)) = Some (Byte.to_N b mod 16)%N
  /\ Byte.of_N (16 * (Byte.to_N b / 16) + Byte.to_N b mod 16) = Some b.
Proof. destruct b; vm_compute; repeat split. Qed.

Lemma fromhex_str (o : oid) : fromhex (str o) = Some o.
Proof.
  induction o as [|b o IH]; [reflexivity|].
  destruct (hex_byte_roundtrip b) as (Hs & Hh & Hl & Hb).
  cbn [str fromhex]. rewrite Hs, Hh, Hl, Hb, IH. reflexivity.
Qed.

Lemma str_length (o : oid) : String.length (str o) = (2 * List.length o)%nat.
Proof.
  induction o as [|b o IH]; [reflexivity|].
  cbn [str String.length List.length]. rewrite IH. lia.
Qed.

Lemma ObjectId_str (o : oid) :
  List.length o = 12%nat -> ObjectId (str o) = Some o.
Proof.
  intros H. unfold ObjectId. rewrite str_length, H. cbn [Nat.eqb Nat.mul Nat.add].
  apply fromhex_str.
Qed.

Lemma generate_length (n : N) : List.length (generate n) = 12%nat.
Proof. reflexivity. Qed.

Lemma find_one_app_new {A : Type} (q : A -> bool) (col : list A) (doc : A) :
  (forall d, In d col -> q d = false) ->
  q doc = true ->
  Mongo.find_one q (col ++ [doc]) = Some doc.
Proof.
  unfold Mongo.find_one. intros Hold Hnew.
  induction col as [|x col IH]; simpl.
  - now rewrite Hnew.
  - rewrite (Hold x (or_introl eq_refl)). apply IH.
    intros d Hd. apply Hold. now right.
Qed.

(** X16. The id CreateDirectory answers is one [ObjectId] accepts, and,
    when no stored directory already has the id the store assigns, it
    finds the new directory: GetDirectoryContent of that id, from the
    creator, answers a listing (neither NOT_FOUND nor PERMISSION_DENIED),
    whatever the new directory's flag and lists are. *)
Theorem CreateDirectory_then_open (self : CatalogService)
    (request : CreateDirectoryRequest) (context : Metadata)
    (w w1 : world) (u : Z) :
  _get_user_identity self context w = (Ret (Some u, true), w1) ->
  (forall d, In d (dirs_col w) -> d_id d <> generate (oid_counter w)) ->
  exists response w',
    CreateDirectory self request context w = (Ret response, w')
    /\ (exists o doc,
          ObjectId (dr_id response) = Some o
          /\ Mongo.find_one (q_dir_id o) (dirs_col w') = Some doc
          /\ directory_response doc = response)
    /\ fst (GetDirectoryContent self
              (mkGetDirectoryRequest (dr_id response)) context w')
       = Ret (spec_listing w' (Some (dr_id response)) (Some u)).
Proof.
  intros Hid Hfresh.
  pose proof (CreateDirectory_run self request context w w1 u Hid) as Hrun.
  cbv zeta in Hrun.
  set (doc := created_directory request (Some u) (generate (oid_counter w)))
    in *.
  set (w' := mkWorld (dirs_col w ++ [doc]) (files_col w)
                     (N.succ (oid_counter w)) (auth_calls w1)
                     (file_calls w) (logger w)) in *.
  exists (directory_response doc), w'. split; [exact Hrun|].
  assert (Ho : ObjectId (dr_id (directory_response doc))
               = Some (generate (oid_counter w))).
  { cbn [dr_id directory_response]. unfold doc, created_directory.
    cbn [d_id]. apply ObjectId_str, generate_length. }
  assert (Hfind : Mongo.find_one (q_dir_id (generate (oid_counter w)))
                                 (dirs_col w') = Some doc).
  { unfold w'. cbn [dirs_col]. apply find_one_app_new.
    - intros d Hd. unfold q_dir_id.
      destruct (oid_eqb (d_id d) (generate (oid_counter w))) eqn:E;
        [|reflexivity].
      apply oid_eqb_eq in E. now apply Hfresh in Hd.
    - unfold q_dir_id. now apply oid_eqb_eq. }
  split.
  - exists (generate (oid_counter w)), doc. auto.
  - destruct (identity_again _ _ _ _ w' _ Hid) as [w1' Hid'].
    rewrite (GetDirectoryContent_run _ _ _ _ _ _ _ Hid').
    cbn [directory_id].
    destruct (ObjectId_truthy _ _ Ho) as [-> _]. rewrite Ho, Hfind.
    assert (Hread : _can_read doc (Some u) = true).
    { unfold _can_read, doc, created_directory. simpl.
      destruct (cd_is_public request); [reflexivity|].
      now rewrite Z.eqb_refl. }
    now rewrite Hread.
Qed.

Lemma CreateDirectory_then_open_witness :
  exists response w',
    CreateDirectory svc (mkCreateDirectoryRequest "New" "" false [] [])
                    meta_owner world_with_file = (Ret response, w')
    /\ fst (GetDirectoryContent svc (mkGetDirectoryRequest (dr_id response))
                                meta_owner w')
       = Ret (spec_listing w' (Some (dr_id response)) (Some id_owner)).
Proof.
  destruct (CreateDirectory_then_open svc
              (mkCreateDirectoryRequest "New" "" false [] []) meta_owner
              world_with_file
              (record_auth_call "sess-owner" world_with_file)
              id_owner eq_refl) as [response [w' (Hrun & _ & Hget)]].
  - intros d [<-|[]]. vm_compute. discriminate.
  - exists response, w'. split; [exact Hrun | exact Hget].
Defined.

(** ** The interceptor in front of the handlers *)

(** The handler's identity resolution, by the token it reads. *)
Lemma get_user_identity_run (self : CatalogService) (context : Metadata)
    (raw : string) (w : world) :
  Py.dict_get "authorization" context = Some raw ->
  Py.truthy raw = true ->
  _get_user_identity self context w =
  (Ret match auth_stub self (bearer raw) with
       | Reply ID => (Some ID, true)
       | RpcError _ => (None, false)
       end, record_auth_call (bearer raw) w).
Proof.
  intros Hraw Htr. unfold _get_user_identity. rewrite Hraw, Htr.
  cbn [negb]. unfold bind, GetCurrentUser, ret.
  now destruct (auth_stub self (bearer raw)).
Qed.

(** X17. The interceptor and the handlers read the token off the metadata
    in the same way.  A write-intent call is either answered by the
    interceptor's abort handler (store untouched, handler not run), or
    handed to the handler after the interceptor's collaborator resolved a
    token; the handler's own identity resolution then asks its
    collaborator for that same token, and its answer is what this second
    call returns: the identity resolved, or [(None, False)] when the
    second call fails.  Nothing is assumed of the two collaborators: they
    are asked one after the other and need not answer alike. *)
Theorem interceptor_and_handler_same_token (gate : AuthInterceptor)
    (self : CatalogService) (d : HandlerCallDetails) (w : world) :
  is_read_op (method d) = false ->
  (exists w1,
     store w1 = store w /\
     forall Req Resp (h : RpcMethodHandler Req Resp) (request : Req),
       serve gate h d request w
       = (Abort UNAUTHENTICATED "Auth required", w1))
  \/ (exists t u,
        stub gate t = Reply u
        /\ (forall Req Resp (h : RpcMethodHandler Req Resp) (request : Req),
              serve gate h d request w
              = h request (invocation_metadata d) (record_auth_call t w))
        /\ (forall w2,
              _get_user_identity self (invocation_metadata d) w2
              = (Ret match auth_stub self t with
                     | Reply ID => (Some ID, true)
                     | RpcError _ => (None, false)
                     end, record_auth_call t w2))).
Proof.
  intros Hwrite.
  assert (Hrun := fun Req Resp k =>
                    intercept_service_run gate Req Resp k d w).
  cbv zeta in Hrun. rewrite Hwrite in Hrun.
  destruct (Py.dict_get "authorization" (invocation_metadata d))
    as [raw|] eqn:Hraw.
  2:{ left. exists w. split; [reflexivity|]. intros Req Resp h request.
      unfold serve, bind. now rewrite Hrun. }
  destruct (Py.truthy (bearer raw)) eqn:Htr.
  2:{ left. exists w. split; [reflexivity|]. intros Req Resp h request.
      unfold serve, bind. now rewrite Hrun. }
  destruct (stub gate (bearer raw)) as [u|e] eqn:Hs.
  2:{ left. exists (record_auth_call (bearer raw) w).
      split; [reflexivity|]. intros Req Resp h request.
      unfold serve, bind. now rewrite Hrun. }
  right. exists (bearer raw), u. split; [exact Hs|]. split.
  - intros Req Resp h request. unfold serve, bind. now rewrite Hrun.
  - intros w2. apply get_user_identity_run; [exact Hraw|].
    destruct (Py.truthy raw) eqn:E; [reflexivity|].
    apply truthy_false in E. subst raw. discriminate Htr.
Qed.

Lemma interceptor_and_handler_same_token_witness :
  exists t u,
    serve interceptor (DeleteFile svc)
          (mkDetails "/catalog.CatalogService/DeleteFile" meta_owner)
          (mkDeleteFileRequest (str oid_f1)) world_with_file
    = DeleteFile svc (mkDeleteFileRequest (str oid_f1)) meta_owner
                 (record_auth_call t world_with_file)
    /\ _get_user_identity svc meta_owner (record_auth_call t world_with_file)
       = (Ret (Some u, true),
          record_auth_call t (record_auth_call t world_with_file)).
Proof.
  destruct (interceptor_and_handler_same_token interceptor svc
              (mkDetails "/catalog.CatalogService/DeleteFile" meta_owner)
              world_with_file eq_refl)
    as [[w1 [_ H]]|[t [u [Hs [H Hid]]]]].
  - specialize (H _ _ (DeleteFile svc) (mkDeleteFileRequest (str oid_f1))).
    vm_compute in H. discriminate H.
  - exists t, u. split; [apply H|].
    rewrite Hid. change (auth_stub svc t) with (stub interceptor t).
    now rewrite Hs.
Defined.

(** The session is closed between the interceptor's call and the
    handler's: the interceptor lets the owner's DeleteFile through, and the
    handler itself aborts with "Auth required". *)
Example logout_between_the_two_calls :
  let svc_after := mkCatalogService (mkFileServiceClient FileServiceMock)
                     (AuthServiceMock (Logout sessions "sess-owner")) in
  serve interceptor (DeleteFile svc_after)
        (mkDetails "/catalog.CatalogService/DeleteFile" meta_owner)
        (mkDeleteFileRequest (str oid_f1)) world_with_file
  = (Abort UNAUTHENTICATED "Auth required",
     record_auth_call "sess-owner"
       (record_auth_call "sess-owner" world_with_file)).
Proof. reflexivity. Qed.

Lemma string_app_assoc (a b c : string) :
  ((a ++ b) ++ c)%string = (a ++ (b ++ c))%string.
Proof. induction a as [|x a IH]; simpl; [reflexivity | now rewrite IH]. Qed.

Lemma catalog_method_segment (service name : string) :
  In name catalog_methods ->
  Py.last_item (Py.split "/" ("/" ++ service ++ "/" ++ name)%string) = name.
Proof.
  intros Hin.
  replace ("/" ++ service ++ "/" ++ name)%string
    with ((("/" ++ service) ++ "/") ++ name)%string
    by (now rewrite !string_app_assoc).
  apply last_segment_unique.
  - unfold catalog_methods in Hin. simpl in Hin.
    repeat (destruct Hin as [<-|Hin]; [reflexivity|]). contradiction.
  - right. eauto.
Qed.

(** X18. Of the seven methods of the service, whatever the service path
    before the method name, a caller without a token reaches exactly
    GetDirectoryContent: that call is handed to its handler with the world
    untouched, and each of the six others is answered UNAUTHENTICATED
    "Auth required" without its handler being run. *)
Theorem anonymous_reaches_only_listing (gate : AuthInterceptor)
    (service name : string) (md : Metadata) (w : world) :
  In name catalog_methods ->
  Py.truthy_opt (interceptor_token md) = false ->
  let d := mkDetails ("/" ++ service ++ "/" ++ name)%string md in
  (is_read_op (method d) = true <-> name = "GetDirectoryContent"%string)
  /\ (name = "GetDirectoryContent"%string ->
      forall Req Resp (h : RpcMethodHandler Req Resp) (request : Req),
        serve gate h d request w = h request md w)
  /\ (name <> "GetDirectoryContent"%string ->
      forall Req Resp (h : RpcMethodHandler Req Resp) (request : Req),
        serve gate h d request w
        = (Abort UNAUTHENTICATED "Auth required", w)).
Proof.
  intros Hin Htok d.
  assert (Hread : is_read_op (method d) = true <->
                  name = "GetDirectoryContent"%string).
  { unfold d, is_read_op. cbn [method].
    rewrite (catalog_method_segment service name Hin).
    unfold catalog_methods in Hin. simpl in Hin.
    repeat (destruct Hin as [<-|Hin];
            [split; [intros H; vm_compute in H; congruence
                    | intros H; try reflexivity; discriminate H]|]).
    contradiction. }
  assert (Hserve : forall Req Resp (h : RpcMethodHandler Req Resp) request,
            serve gate h d request w =
            if is_read_op (method d) then h request md w
            else (Abort UNAUTHENTICATED "Auth required", w)).
  { intros Req Resp h request. unfold serve, intercept_service.
    cbn [invocation_metadata d].
    destruct (interceptor_token md) as [t|]; cbn [Py.truthy_opt] in Htok.
    - rewrite Htok. unfold bind, ret.
      destruct (is_read_op (method d)); reflexivity.
    - unfold bind, ret. destruct (is_read_op (method d)); reflexivity. }
  split; [exact Hread|]. split.
  - intros Hname Req Resp h request. rewrite Hserve.
    now rewrite (proj2 Hread Hname).
  - intros Hname Req Resp h request. rewrite Hserve.
    destruct (is_read_op (method d)) eqn:E; [|reflexivity].
    exfalso. apply Hname. now apply Hread.
Qed.

Lemma anonymous_reaches_only_listing_witness :
  serve interceptor (GetDirectoryContent svc)
        (mkDetails "/catalog.CatalogService/GetDirectoryContent"
                   meta_anonymous)
        (mkGetDirectoryRequest "") world_with_file
  = GetDirectoryContent svc (mkGetDirectoryRequest "") meta_anonymous
                        world_with_file.
Proof.
  destruct (anonymous_reaches_only_listing interceptor
              "catalog.CatalogService" "GetDirectoryContent" meta_anonymous
              world_with_file) as (_ & H & _).
  - simpl. auto.
  - reflexivity.
  - apply (H eq_refl).
Defined.

(** ** The session table of the identity mock *)

Lemma find_filter_implied {A : Type} (p q : A -> bool) (l : list A) :
  (forall x, p x = true -> q x = true) ->
  List.find p (filter q l) = List.find p l.
Proof.
  intros Himp. induction l as [|x l IH]; simpl; [reflexivity|].
  destruct (q x) eqn:Hq; simpl.
  - now rewrite IH.
  - destruct (p x) eqn:Hp; [|exact IH].
    apply Himp in Hp. congruence.
Qed.

Lemma find_filter_excluded {A : Type} (p q : A -> bool) (l : list A) :
  (forall x, p x = true -> q x = false) ->
  List.find p (filter q l) = None.
Proof.
  intros Hex. induction l as [|x l IH]; simpl; [reflexivity|].
  destruct (q x) eqn:Hq; simpl; [|exact IH].
  destruct (p x) eqn:Hp; [|exact IH].
  apply Hex in Hp. congruence.
Qed.

Lemma find_none_existsb {A : Type} (p : A -> bool) (l : list A) :
  existsb p l = false -> List.find p (rev l) = None.
Proof.
  intros H. destruct (List.find p (rev l)) as [x|] eqn:F; [|reflexivity].
  apply find_some in F. destruct F as [Hin Hp]. apply in_rev in Hin.
  assert (existsb p l = true) by (apply existsb_exists; eauto).
  congruence.
Qed.

(** X19. The identity mock's session table: after [CreateSession] the
    session resolves to the user just stored, also when the session id was
    already in use, and every other session resolves as before; after
    [Logout] the session fails with "Invalid Session" and every other
    session resolves as before; [Logout] of an unknown session changes
    nothing; an empty table resolves nothing. *)
Theorem AuthServiceMock_sessions (ACTIVE_SESSIONS : list (string * Z))
    (SessionID : string) (user : Z) :
  AuthServiceMock (CreateSession ACTIVE_SESSIONS SessionID user) SessionID
  = Reply user
  /\ (forall other, other <> SessionID ->
        AuthServiceMock (CreateSession ACTIVE_SESSIONS SessionID user) other
        = AuthServiceMock ACTIVE_SESSIONS other)
  /\ AuthServiceMock (Logout ACTIVE_SESSIONS SessionID) SessionID
     = RpcError "Invalid Session"
  /\ (forall other, other <> SessionID ->
        AuthServiceMock (Logout ACTIVE_SESSIONS SessionID) other
        = AuthServiceMock ACTIVE_SESSIONS other)
  /\ (AuthServiceMock ACTIVE_SESSIONS SessionID = RpcError "Invalid Session"
      -> Logout ACTIVE_SESSIONS SessionID = ACTIVE_SESSIONS)
  /\ AuthServiceMock [] SessionID = RpcError "Invalid Session".
Proof.
  unfold AuthServiceMock, CreateSession, Logout.
  split; [|split; [|split; [|split; [|split]]]].
  - rewrite rev_unit. simpl. now rewrite String.eqb_refl.
  - intros other Hne. rewrite rev_unit. simpl.
    destruct (String.eqb_spec SessionID other); [congruence|reflexivity].
  - destruct (existsb _ ACTIVE_SESSIONS) eqn:E.
    + rewrite <- filter_rev, find_filter_excluded; [reflexivity|].
      intros x Hx. now rewrite Hx.
    + now rewrite find_none_existsb.
  - intros other Hne. destruct (existsb _ ACTIVE_SESSIONS); [|reflexivity].
    rewrite <- filter_rev, find_filter_implied; [reflexivity|].
    intros x Hx. apply String.eqb_eq in Hx. rewrite Hx.
    destruct (String.eqb_spec other SessionID); [contradiction|reflexivity].
  - intros H. destruct (existsb _ ACTIVE_SESSIONS) eqn:E; [|reflexivity].
    exfalso. apply existsb_exists in E. destruct E as [x [Hin Hx]].
    destruct (List.find _ (rev ACTIVE_SESSIONS)) as [y|] eqn:F;
      [discriminate|].
    apply in_rev in Hin.
    pose proof (find_none _ _ F x Hin) as Hn. simpl in Hn. congruence.
  - reflexivity.
Qed.

Lemma AuthServiceMock_sessions_witness :
  Logout sessions "no-such-session" = sessions.
Proof.
  destruct (AuthServiceMock_sessions sessions "no-such-session" 0)
    as (_ & _ & _ & _ & H & _).
  apply H. reflexivity.
Defined.

(** ** What a listing can show *)

(** X20. A listing never shows what the caller may not read: every
    directory and every file that GetDirectoryContent answers is public, or
    has the caller as its owner or in one of its two lists; to a caller
    without identity it answers public entries only. *)
Theorem listing_shows_readable_only (self : CatalogService)
    (request : GetDirectoryRequest) (context : Metadata)
    (w w1 w' : world) (user_id : option Z) (is_auth : bool)
    (content : DirectoryContentResponse) :
  _get_user_identity self context w = (Ret (user_id, is_auth), w1) ->
  GetDirectoryContent self request context w = (Ret content, w') ->
  (forall r, In r (directories content) ->
     dr_is_public r = true \/
     exists u, user_id = Some u /\
               (dr_owner_id r = u \/ In u (dr_allowed_readers r) \/
                In u (dr_allowed_writers r)))
  /\ (forall r, In r (files content) ->
        fr_is_public r = true \/
        exists u, user_id = Some u /\
                  (fr_owner_id r = u \/ In u (fr_allowed_readers r) \/
                   In u (fr_allowed_writers r)))
  /\ (user_id = None ->
      (forall r, In r (directories content) -> dr_is_public r = true)
      /\ (forall r, In r (files content) -> fr_is_public r = true)).
Proof.
  intros Hid Hget.
  assert (Hlist : exists container,
            content = spec_listing w container user_id).
  { rewrite (GetDirectoryContent_run _ _ _ _ _ _ _ Hid) in Hget.
    destruct (Py.truthy _).
    - destruct (ObjectId _); [|discriminate].
      destruct (Mongo.find_one _ _); [|discriminate].
      destruct (_can_read _ _); [|discriminate].
      injection Hget as <- _. eauto.
    - injection Hget as <- _. eauto. }
  destruct Hlist as [container ->].
  assert (Hacl : forall a : acl,
            _can_read a user_id = true ->
            Py.get (is_public a) false = true \/
            exists u, user_id = Some u /\
                      (Py.get (owner_id a) 0%Z = u \/
                       In u (Py.get (allowed_readers a) []) \/
                       In u (Py.get (allowed_writers a) []))).
  { intros a Hread. apply can_read_true in Hread.
    destruct Hread as [H|[u [Hu [H|[H|H]]]]]; [now left|right..];
      exists u; (split; [exact Hu|]); auto.
    left. now rewrite H. }
  assert (Hdirs : forall r, In r (directories (spec_listing w container user_id)) ->
            dr_is_public r = true \/
            exists u, user_id = Some u /\
                      (dr_owner_id r = u \/ In u (dr_allowed_readers r) \/
                       In u (dr_allowed_writers r))).
  { intros r Hin. unfold spec_listing in Hin. cbn [directories] in Hin.
    apply in_map_iff in Hin. destruct Hin as [d [<- Hd]].
    apply spec_visible_dirs_In in Hd. destruct Hd as (_ & _ & Hread).
    apply (Hacl d Hread). }
  assert (Hfiles : forall r, In r (files (spec_listing w container user_id)) ->
            fr_is_public r = true \/
            exists u, user_id = Some u /\
                      (fr_owner_id r = u \/ In u (fr_allowed_readers r) \/
                       In u (fr_allowed_writers r))).
  { intros r Hin. unfold spec_listing in Hin. cbn [files] in Hin.
    apply in_map_iff in Hin. destruct Hin as [f [<- Hf]].
    apply spec_visible_files_In in Hf. destruct Hf as (_ & _ & Hread).
    apply (Hacl f Hread). }
  split; [exact Hdirs|]. split; [exact Hfiles|].
  intros ->. split; intros r Hin.
  - destruct (Hdirs r Hin) as [H|[u [Hu _]]]; [exact H|discriminate].
  - destruct (Hfiles r Hin) as [H|[u [Hu _]]]; [exact H|discriminate].
Qed.

Lemma listing_shows_readable_only_witness :
  dr_is_public (directory_response dir_sub) = true \/
  exists u, Some id_reader = Some u /\
            (dr_owner_id (directory_response dir_sub) = u \/
             In u (dr_allowed_readers (directory_response dir_sub)) \/
             In u (dr_allowed_writers (directory_response dir_sub))).
Proof.
  apply (proj1 (listing_shows_readable_only svc
           (mkGetDirectoryRequest (str oid_docs)) meta_reader
           world_with_subdir
           (record_auth_call "sess-reader" world_with_subdir)
           (record_auth_call "sess-reader" world_with_subdir)
           (Some id_reader) true
           {| directories := [directory_response dir_sub]; files := [] |}
           eq_refl eq_refl)).
  left. reflexivity.
Defined.
